(** * Polling client of the AI Soundtrack Generator

    Shallow embedding of the music-generation submission and polling code:
    - [src/services/sunoService.ts]   ([SunoService]: WAV record-info poller),
    - [src/services/geminiService.ts] ([GeminiService]: schema-tolerant poller),
    - [src/unnamed/part_000]          ([Part000]: staged record-info poller),
    - [src/services/udioService.ts]   ([UdioService]);
    and the script analysis that precedes them:
    - [src/services/geminiService.ts] ([GeminiAnalysis]: video upload and
      [analyzeScriptAndGeneratePrompts]),
    - [src/App.tsx]                   ([AnalyzeApp]: [handleAnalyzeScript]),
    - [src/api/gemini-analyze.ts]     ([AnalyzeApi]: the serverless handler).

    Parsed JSON is modelled by [jv] with JavaScript truthiness and property
    access; the HTTP layer of one attempt by [http_outcome]; exceptions by
    [exn]; the [for]/[try]/[catch] skeleton shared by all pollers by
    [poll_loop].  The [setTimeout] sleep and the [onProgress] and
    [console] calls do not influence the result and are not modelled (the
    callback is assumed not to throw). *)

From Stdlib Require Import String Ascii List ZArith Bool Lia.
Import ListNotations.
Local Open Scope string_scope.
Local Set Warnings "-register-all".

(** ** JavaScript values produced by [response.json()] *)

(** Numbers are kept as integers: only their zero-ness and comparison with
    integer literals ([200]) are observed by the code. *)
Inductive jv : Type :=
| JUndef
| JNull
| JBool (b : bool)
| JNum (n : Z)
| JStr (s : string)
| JArr (xs : list jv)
| JObj (fields : list (string * jv)).

Fixpoint lookup_field (k : string) (fs : list (string * jv)) : jv :=
  match fs with
  | [] => JUndef
  | (k', v) :: rest => if String.eqb k k' then v else lookup_field k rest
  end.

(** [v.k]; [None] is the TypeError thrown when [v] is null or undefined.
    Strings, numbers, booleans and arrays carry none of the keys the code
    reads. *)
Definition get (v : jv) (k : string) : option jv :=
  match v with
  | JUndef | JNull => None
  | JObj fs => Some (lookup_field k fs)
  | _ => Some JUndef
  end.

(** [v?.k] *)
Definition oget (v : jv) (k : string) : jv :=
  match get v k with Some x => x | None => JUndef end.

Definition truthy (v : jv) : bool :=
  match v with
  | JUndef | JNull => false
  | JBool b => b
  | JNum n => negb (Z.eqb n 0)
  | JStr s => negb (String.eqb s "")
  | JArr _ | JObj _ => true
  end.

(** [a || b] *)
Definition js_or (a b : jv) : jv := if truthy a then a else b.

(** [v === "s"] and [v === n] *)
Definition is_str (v : jv) (s : string) : bool :=
  match v with JStr t => String.eqb t s | _ => false end.

Definition is_num (v : jv) (n : Z) : bool :=
  match v with JNum m => Z.eqb m n | _ => false end.

Definition nullish (v : jv) : bool :=
  match v with JUndef | JNull => true | _ => false end.

(** [Array.isArray v] *)
Definition is_array (v : jv) : bool :=
  match v with JArr _ => true | _ => false end.

Definition array_items (v : jv) : list jv :=
  match v with JArr xs => xs | _ => [] end.

(** Decimal rendering of an integer. *)
Definition digit (d : Z) : ascii := ascii_of_nat (48 + Z.to_nat d).

Fixpoint digits_rev (fuel : nat) (n : Z) (acc : string) : string :=
  match fuel with
  | O => acc
  | S f =>
      let acc' := String (digit (n mod 10)) acc in
      if (n / 10 =? 0)%Z then acc' else digits_rev f (n / 10) acc'
  end.

Definition number_to_string (z : Z) : string :=
  if (z <? 0)%Z
  then "-" ++ digits_rev (Z.to_nat (Z.log2 (- z)) + 1) (- z) ""
  else digits_rev (Z.to_nat (Z.log2 z) + 1) z "".

Fixpoint join_comma (xs : list string) : string :=
  match xs with
  | [] => ""
  | [x] => x
  | x :: rest => x ++ "," ++ join_comma rest
  end.

(** [`${v}`]: the string conversion of a template literal. *)
Fixpoint to_string (v : jv) : string :=
  match v with
  | JUndef => "undefined"
  | JNull => "null"
  | JBool true => "true"
  | JBool false => "false"
  | JNum n => number_to_string n
  | JStr s => s
  | JArr xs =>
      join_comma (map (fun x => match x with
                                | JUndef | JNull => ""
                                | _ => to_string x
                                end) xs)
  | JObj _ => "[object Object]"
  end.

(** [s.startsWith(p)] and [s.includes(p)] *)
Fixpoint starts_with (s p : string) : bool :=
  match p, s with
  | EmptyString, _ => true
  | String c p', String d s' => Ascii.eqb c d && starts_with s' p'
  | String _ _, EmptyString => false
  end.

Fixpoint includes (s p : string) : bool :=
  starts_with s p ||
  match s with
  | EmptyString => false
  | String _ s' => includes s' p
  end.

(** [String.prototype.toUpperCase] on ASCII text: [a]-[z] become [A]-[Z].
    The engine's full Unicode mapping (['ß'] to ['SS'], ['é'] to ['É'], ...)
    is left to the runtime: [geminiService] takes its [toUpperCase] as a
    parameter, and this function is only the sample runtime of the
    examples, where every status is ASCII. *)
Definition upper_char (c : ascii) : ascii :=
  let n := nat_of_ascii c in
  if Nat.leb 97 n && Nat.leb n 122 then ascii_of_nat (n - 32) else c.

Fixpoint ascii_toUpperCase (s : string) : string :=
  match s with
  | EmptyString => EmptyString
  | String c s' => String (upper_char c) (ascii_toUpperCase s')
  end.

(** ** HTTP attempts, exceptions, results *)

(** What one [fetch] round trip yields: [fetch] rejecting, a non-2xx
    response with its status and body text ([response.text()] resolves), a
    non-2xx response whose [response.text()] rejects with an error of the
    given message, a 2xx response whose [response.json()] rejects, or a 2xx
    response with its parsed JSON. *)
Inductive http_outcome : Type :=
| FetchRejected (message : string)
| HttpError (status : Z) (body : string)
| HttpErrorUnread (status : Z) (message : string)
| BadJson (message : string)
| HttpOk (payload : jv).

(** Thrown values: [new Error(message)] (also a rejected fetch) or the
    TypeError of a property read on null/undefined or of calling a missing
    method, whose message never contains the markers the catch blocks test. *)
Inductive exn : Type :=
| Error (message : string)
| TypeError.

(** Outcome of one run of a [try] body inside the loop. *)
Inductive step (A : Type) : Type :=
| Continue
| Return (v : A)
| Throw (e : exn).
Arguments Continue {A}.
Arguments Return {A} v.
Arguments Throw {A} e.

Inductive outcome (A : Type) : Type :=
| Resolved (v : A)
| Rejected (e : exn).
Arguments Resolved {A} v.
Arguments Rejected {A} e.

(** [SunoTask] of [src/types.ts]; absent optional fields are [JUndef]. *)
Record SunoTask : Type := {
  id : jv;
  status : string;
  audio_url : jv;
  image_url : jv;
  title : jv;
  model_name : jv;
  prompt : jv
}.

(** ** The polling skeleton

    [for (let i = 0; i < MAX_ATTEMPTS; i++) { await sleep; try { body }
    catch (e) { if (rethrow e) throw e; } } throw timeout].
    The result pairs the number of status requests issued with the
    promise's outcome. *)
Section PollLoop.
Context {State A : Type}.
Variable body : nat -> http_outcome -> State -> step A * State.
Variable rethrow : exn -> bool.
Variable timeout : State -> exn.
Variable resp : nat -> http_outcome.

Fixpoint poll_loop (fuel i : nat) (st : State) : nat * outcome A :=
  match fuel with
  | O => (i, Rejected (timeout st))
  | S f =>
      let (r, st') := body i (resp i) st in
      match r with
      | Continue => poll_loop f (S i) st'
      | Return v => (S i, Resolved v)
      | Throw e =>
          if rethrow e then (S i, Rejected e) else poll_loop f (S i) st'
      end
  end.
End PollLoop.

(** ** [src/services/sunoService.ts] *)
Module SunoService.

Definition MAX_ATTEMPTS : nat := 120.
Definition INTERVAL : Z := 5000.

Record state : Type := {
  consecutiveErrors : nat;
  lastKnownData : jv
}.

Definition init : state := {| consecutiveErrors := 0; lastKnownData := JNull |}.

Definition bump (st : state) : state :=
  {| consecutiveErrors := S (consecutiveErrors st);
     lastKnownData := lastKnownData st |}.

(** [data.successFlag || 'UNKNOWN'] *)
Definition status_of (data : jv) : jv :=
  js_or (oget data "successFlag") (JStr "UNKNOWN").

Definition failed_flag (status : jv) : bool :=
  is_str status "CREATE_TASK_FAILED" || is_str status "GENERATE_WAV_FAILED"
  || is_str status "CALLBACK_EXCEPTION".

(** The [try] body of [pollForMusic], lines 92-164. *)
Definition body (i : nat) (r : http_outcome) (st : state)
  : step (list SunoTask) * state :=
  match r with
  | FetchRejected m | BadJson m => (Throw (Error m), st)
  | HttpError code text =>
      let st1 := bump st in
      if Nat.leb 5 (consecutiveErrors st1)
      then (Throw (Error ("Repeated API errors (" ++ number_to_string code
                          ++ "): " ++ text)), st1)
      else (Continue, st1)
  | HttpErrorUnread _ m =>
      (* [consecutiveErrors++] has run when [await response.text()] throws *)
      (Throw (Error m), bump st)
  | HttpOk res =>
      match get res "code" with
      | None => (Throw TypeError, st)
      | Some code =>
          if negb (is_num code 200) then
            let st1 := bump st in
            if Nat.leb 5 (consecutiveErrors st1)
            then (Throw (Error ("Repeated API error code " ++ to_string code
                                ++ ": " ++ to_string (oget res "msg"))), st1)
            else (Continue, st1)
          else
            let data := oget res "data" in
            let st1 := {| consecutiveErrors := 0; lastKnownData := data |} in
            if negb (truthy data) then (Continue, st1) else
            let status := status_of data in
            if is_str status "SUCCESS" then
              let url := oget (oget data "response") "audioWavUrl" in
              if truthy url then
                (Return [{| id := oget data "taskId";
                            status := "SUCCESS";
                            audio_url := url;
                            image_url := JUndef;
                            title := JStr "Generated Track";
                            model_name := JUndef;
                            prompt := JUndef |}], st1)
              else if Nat.ltb i (MAX_ATTEMPTS - 5) then (Continue, st1)
              else (Throw (Error "Generation marked as complete but audio URL was never provided"), st1)
            else if failed_flag status then
              (Throw (Error ("Suno API task failed: "
                             ++ to_string (js_or (oget data "errorMessage")
                                                 (JStr "Unknown error")))), st1)
            else (Continue, st1)
      end
  end.

(** The [catch] clause: which errors are rethrown. *)
Definition rethrow (e : exn) : bool :=
  match e with
  | Error m =>
      includes m "Repeated API" || includes m "Suno API task failed"
      || includes m "Generation marked as complete"
  | TypeError => false
  end.

Definition timeout_base : string :=
  "Timeout waiting for music generation after "
  ++ number_to_string (Z.of_nat MAX_ATTEMPTS) ++ " attempts ("
  ++ number_to_string (Z.of_nat MAX_ATTEMPTS * INTERVAL / 1000) ++ " seconds).".

Definition timeout (st : state) : exn :=
  let d := lastKnownData st in
  Error (timeout_base ++
    (if truthy d then
       " Last known status: " ++ to_string (status_of d) ++ "."
       ++ (if truthy (oget d "errorMessage")
           then " Error: " ++ to_string (oget d "errorMessage") else "")
     else "")).

Definition run (resp : nat -> http_outcome) (fuel i : nat) (st : state)
  : nat * outcome (list SunoTask) :=
  poll_loop body rethrow timeout resp fuel i st.

Definition pollForMusic (resp : nat -> http_outcome)
  : nat * outcome (list SunoTask) :=
  run resp MAX_ATTEMPTS 0 init.

(** [generateMusic] (lines 35-72) for one [fetch] outcome; [prompt] and
    [instrumental] only enter the request body. *)
Definition generateMusic (prompt apiKey : string) (instrumental : bool)
  (r : http_outcome) : outcome jv :=
  if String.eqb apiKey "" then Rejected (Error "Suno API Key is required.") else
  match r with
  | FetchRejected m =>
      Rejected (Error ("Network error during generation request: " ++ m))
  | HttpError code text =>
      Rejected (Error ("Suno API Request Failed (" ++ number_to_string code
                       ++ "): " ++ text))
  | HttpErrorUnread _ m | BadJson m => Rejected (Error m)
  | HttpOk res =>
      match get res "code" with
      | None => Rejected TypeError
      | Some code =>
          if negb (is_num code 200)
          then Rejected (Error ("Suno API Error (" ++ to_string code ++ "): "
                                ++ to_string (oget res "msg")))
          else match get (oget res "data") "taskId" with
               | None => Rejected TypeError
               | Some taskId => Resolved taskId
               end
      end
  end.

End SunoService.

(** ** [src/services/geminiService.ts], lines 158-385 *)
Module GeminiService.

Definition MAX_ATTEMPTS : nat := 60.
Definition INTERVAL : Z := 5000.

Record state : Type := {
  consecutiveErrors : nat;
  lastKnownStatus : string
}.

Definition init : state :=
  {| consecutiveErrors := 0; lastKnownStatus := "Initializing" |}.

Definition bump (st : state) : state :=
  {| consecutiveErrors := S (consecutiveErrors st);
     lastKnownStatus := lastKnownStatus st |}.

Definition reset (st : state) : state :=
  {| consecutiveErrors := 0; lastKnownStatus := lastKnownStatus st |}.

(** [JSON.parse] ([None]: it throws), the text of
    [`${Date.now()}-${Math.random()}`] at attempt [i] for the [k]-th
    returned track and [String.prototype.toUpperCase] are supplied by the
    runtime. *)
Section Runtime.
Variable JSON_parse : string -> option jv.
Variable now_random : nat -> nat -> string.
Variable toUpperCase : string -> string.

(** [responseObj]: [data.response], parsed when it is a string
    (lines 313-320). *)
Definition response_obj (data : jv) : jv :=
  let r := oget data "response" in
  match r with
  | JStr s => match JSON_parse s with Some v => v | None => r end
  | _ => r
  end.

(** Lines 310-333: the first array found among the candidate locations. *)
Definition extract_tracks (data : jv) : list jv :=
  let responseObj := response_obj data in
  if truthy (oget responseObj "data") && is_array (oget responseObj "data")
  then array_items (oget responseObj "data")
  else if is_array responseObj then array_items responseObj
  else if is_array (oget data "data") then array_items (oget data "data")
  else if truthy (oget responseObj "clips") && is_array (oget responseObj "clips")
  then array_items (oget responseObj "clips")
  else [].

(** [getAudioUrl] (line 336); [None] is the TypeError on a null track. *)
Definition getAudioUrl (t : jv) : option jv :=
  match get t "audio_url" with
  | None => None
  | Some a =>
      Some (js_or a (js_or (oget t "audioUrl") (js_or (oget t "audio_src")
              (js_or (oget t "url") (oget t "audio")))))
  end.

(** [getImageUrl] (line 337), only called on tracks that are not null. *)
Definition getImageUrl (t : jv) : jv :=
  js_or (oget t "image_url") (js_or (oget t "imageUrl")
    (js_or (oget t "image_src") (oget t "image"))).

(** [tracks.filter(t => getAudioUrl(t))] *)
Fixpoint filter_valid (ts : list jv) : option (list jv) :=
  match ts with
  | [] => Some []
  | t :: rest =>
      match getAudioUrl t with
      | None => None
      | Some u =>
          match filter_valid rest with
          | None => None
          | Some vs => Some (if truthy u then t :: vs else vs)
          end
      end
  end.

(** The object built for the [k]-th valid track at attempt [i]
    (lines 345-352). *)
Definition to_task (i k : nat) (item : jv) : SunoTask :=
  {| id := js_or (oget item "id") (JStr ("gen-" ++ now_random i k));
     status := "SUCCESS";
     audio_url := match getAudioUrl item with Some u => u | None => JUndef end;
     image_url := getImageUrl item;
     title := js_or (oget item "title") (JStr "Generated Track");
     model_name := JUndef;
     prompt := js_or (oget item "prompt") (oget (oget item "metadata") "prompt") |}.

Fixpoint to_tasks (i k : nat) (items : list jv) : list SunoTask :=
  match items with
  | [] => []
  | item :: rest => to_task i k item :: to_tasks i (S k) rest
  end.

(** The [try] body of [pollForMusic], lines 267-369. *)
Definition body (i : nat) (r : http_outcome) (st : state)
  : step (list SunoTask) * state :=
  match r with
  | FetchRejected m | BadJson m => (Throw (Error m), st)
  | HttpError code text =>
      let st1 := bump st in
      if Nat.leb 5 (consecutiveErrors st1)
      then (Throw (Error ("Repeated API errors (" ++ number_to_string code
                          ++ "): " ++ text)), st1)
      else (Continue, st1)
  | HttpErrorUnread _ m =>
      (* [consecutiveErrors++] has run when [await response.text()] throws *)
      (Throw (Error m), bump st)
  | HttpOk res =>
      match get res "code" with
      | None => (Throw TypeError, st)
      | Some code =>
          if negb (is_num code 200) then
            let st1 := bump st in
            if Nat.leb 5 (consecutiveErrors st1)
            then (Throw (Error ("Repeated API error code " ++ to_string code
                                ++ ": " ++ to_string (oget res "msg"))), st1)
            else (Continue, st1)
          else
            let st0 := reset st in
            let data := oget res "data" in
            if negb (truthy data) then (Continue, st0) else
            (* (data.status || 'UNKNOWN').toUpperCase() *)
            match js_or (oget data "status") (JStr "UNKNOWN") with
            | JStr s0 =>
                let status := toUpperCase s0 in
                let st1 := {| consecutiveErrors := 0; lastKnownStatus := status |} in
                let tracks := extract_tracks data in
                match (if Nat.ltb 0 (length tracks) then filter_valid tracks
                       else Some []) with
                | None => (Throw TypeError, st1)
                | Some validTracks =>
                    if Nat.ltb 0 (length validTracks)
                    then (Return (to_tasks i 0 validTracks), st1)
                    else if String.eqb status "SUCCESS" then
                      (Throw (Error (if Nat.ltb 0 (length tracks)
                         then "Generation marked as complete, but audio URLs were missing from the response."
                         else "Generation marked as complete, but no track data was returned.")), st1)
                    else if String.eqb status "FAILED" then
                      (Throw (Error ("Suno API task failed: "
                         ++ to_string (js_or (oget data "errorMessage")
                                             (JStr "Unknown error")))), st1)
                    else (Continue, st1)
                end
            | _ => (Throw TypeError, st0)
            end
      end
  end.

Definition rethrow (e : exn) : bool :=
  match e with
  | Error m =>
      includes m "Repeated API" || includes m "Suno API task failed"
      || includes m "Generation marked as complete"
  | TypeError => false
  end.

Definition timeout (st : state) : exn :=
  Error ("Timeout waiting for music generation. Last known status: "
         ++ lastKnownStatus st
         ++ ". If the status was SUCCESS, it may indicate a data parsing issue.").

Definition run (resp : nat -> http_outcome) (fuel i : nat) (st : state)
  : nat * outcome (list SunoTask) :=
  poll_loop body rethrow timeout resp fuel i st.

Definition pollForMusic (resp : nat -> http_outcome)
  : nat * outcome (list SunoTask) :=
  run resp MAX_ATTEMPTS 0 init.

End Runtime.

End GeminiService.

(** ** [src/unnamed/part_000]: the staged record-info poller *)
Module Part000.

Definition MAX_ATTEMPTS : nat := 60.

(** The [case] labels of the [switch] that throw (lines 158-162). *)
Definition failure_case (status : jv) : bool :=
  is_str status "CREATE_TASK_FAILED" || is_str status "GENERATE_AUDIO_FAILED"
  || is_str status "CALLBACK_EXCEPTION" || is_str status "SENSITIVE_WORD_ERROR".

(** [v.includes(x)]: strings and arrays have the method, other values
    throw a TypeError ([None]). *)
Definition js_includes (v : jv) (x : string) : option bool :=
  match v with
  | JStr s => Some (includes s x)
  | JArr xs => Some (existsb (fun y => is_str y x) xs)
  | _ => None
  end.

(** [x > 0] for the [length] of a non-array [sunoData]; a string-valued
    [length] counts as not positive (both outcomes of that test end in an
    exception the catch swallows). *)
Definition positive (v : jv) : bool :=
  match v with
  | JNum n => (0 <? n)%Z
  | JBool b => b
  | _ => false
  end.

(** [sunoData.length > 0] *)
Definition has_length (v : jv) : bool :=
  match v with
  | JArr xs => Nat.ltb 0 (length xs)
  | JStr s => Nat.ltb 0 (String.length s)
  | JObj fs => positive (lookup_field "length" fs)
  | _ => false
  end.

(** The object built for each track (lines 176-184). *)
Definition to_task (track : jv) : option SunoTask :=
  match get track "id" with
  | None => None
  | Some tid =>
      Some {| id := tid;
              status := "SUCCESS";
              audio_url := oget track "audioUrl";
              image_url := oget track "imageUrl";
              title := oget track "title";
              model_name := oget track "modelName";
              prompt := oget track "prompt" |}
  end.

Fixpoint map_tasks (ts : list jv) : option (list SunoTask) :=
  match ts with
  | [] => Some []
  | t :: rest =>
      match to_task t, map_tasks rest with
      | Some x, Some xs => Some (x :: xs)
      | _, _ => None
      end
  end.

Definition failed (taskData status : jv) : exn :=
  Error ("Generation failed: " ++ to_string (js_or (oget taskData "errorMessage") status)).

(** The [try] body of [pollForMusic], lines 104-194. *)
Definition body (i : nat) (r : http_outcome) (st : unit)
  : step (list SunoTask) * unit :=
  (match r with
   | FetchRejected m | BadJson m => Throw (Error m)
   | HttpError _ _ | HttpErrorUnread _ _ => Continue
   | HttpOk result =>
       match get result "code" with
       | None => Throw TypeError
       | Some code =>
           if negb (is_num code 200) then Continue else
           let taskData := oget result "data" in
           match get taskData "status" with
           | None => Throw TypeError
           | Some status =>
               if failure_case status then Throw (failed taskData status)
               else if is_str status "SUCCESS" then
                 let sunoData := oget (oget taskData "response") "sunoData" in
                 if truthy sunoData && has_length sunoData then
                   match sunoData with
                   | JArr xs =>
                       match map_tasks xs with
                       | Some ts => Return ts
                       | None => Throw TypeError
                       end
                   | _ => Throw TypeError
                   end
                 else Throw (Error "Generation completed but no audio data returned")
               else
                 match js_includes status "FAILED" with
                 | None => Throw TypeError
                 | Some true => Throw (failed taskData status)
                 | Some false =>
                     match js_includes status "ERROR" with
                     | None => Throw TypeError
                     | Some true => Throw (failed taskData status)
                     | Some false => Continue
                     end
                 end
           end
       end
   end, st).

Definition rethrow (e : exn) : bool :=
  match e with
  | Error m => includes m "Generation failed"
  | TypeError => false
  end.

Definition timeout (_ : unit) : exn :=
  Error "Generation timeout, please try again later".

Definition run (resp : nat -> http_outcome) (fuel i : nat)
  : nat * outcome (list SunoTask) :=
  poll_loop body rethrow timeout resp fuel i tt.

Definition pollForMusic (resp : nat -> http_outcome)
  : nat * outcome (list SunoTask) :=
  run resp MAX_ATTEMPTS 0.

End Part000.

(** ** [src/services/udioService.ts] *)
Module UdioService.

Definition MAX_ATTEMPTS : nat := 30.

(** [generateTrack] (lines 25-58) for one [fetch] outcome. *)
Definition generateTrack (prompt apiKey : string) (r : http_outcome)
  : outcome jv :=
  if String.eqb apiKey "" then Rejected (Error "Udio API Key is required.") else
  match r with
  | FetchRejected m | HttpErrorUnread _ m | BadJson m => Rejected (Error m)
  | HttpError code text =>
      Rejected (Error ("Udio API Error (" ++ number_to_string code ++ "): " ++ text))
  | HttpOk data =>
      match get data "workId" with
      | None => Rejected TypeError
      | Some w =>
          let workId := js_or w (oget (oget data "data") "task_id") in
          if negb (truthy workId)
          then Rejected (Error "Failed to retrieve Task ID from Udio response.")
          else Resolved workId
      end
  end.

Section Work.
Variable workId : string.

(** [ts.find(t => t.id === workId)]; [None] is a TypeError. *)
Fixpoint find_track (ts : list jv) : option jv :=
  match ts with
  | [] => Some JUndef
  | t :: rest =>
      match get t "id" with
      | None => None
      | Some tid => if is_str tid workId then Some t else find_track rest
      end
  end.

(** [res.data?.find(...)] *)
Definition find_in (data : jv) : option jv :=
  match data with
  | JUndef | JNull => Some JUndef
  | JArr ts => find_track ts
  | _ => None
  end.

(** The [try] body of [pollForTrack], lines 82-97. *)
Definition body (i : nat) (r : http_outcome) (st : unit) : step jv * unit :=
  (match r with
   | FetchRejected m | BadJson m => Throw (Error m)
   | HttpError _ _ | HttpErrorUnread _ _ => Continue
   | HttpOk res =>
       match get res "data" with
       | None => Throw TypeError
       | Some d =>
           match find_in d with
           | None => Throw TypeError
           | Some track =>
               if truthy track then
                 if is_str (oget track "status") "SUCCESS"
                    && truthy (oget track "audio_url")
                 then Return (oget track "audio_url")
                 else if is_str (oget track "status") "FAILED"
                 then Throw (Error "Udio generation failed.")
                 else Continue
               else Continue
           end
       end
   end, st).

(** The [catch] clause rethrows nothing. *)
Definition rethrow (e : exn) : bool := false.

Definition timeout (_ : unit) : exn := Error "Timeout waiting for audio generation.".

Definition run (resp : nat -> http_outcome) (fuel i : nat) : nat * outcome jv :=
  poll_loop body rethrow timeout resp fuel i tt.

Definition pollForTrack (resp : nat -> http_outcome) : nat * outcome jv :=
  run resp MAX_ATTEMPTS 0.

End Work.

End UdioService.

(** ** Classes of status responses *)



(** The [data] of a 2xx, [code === 200] response when it is truthy. *)
Definition ok_data (r : http_outcome) : option jv :=
  match r with
  | HttpOk res =>
      match get res "code" with
      | Some c =>
          if is_num c 200 then
            let d := oget res "data" in if truthy d then Some d else None
          else None
      | None => None
      end
  | _ => None
  end.


(** [geminiService]: the status string of a well-formed response (missing
    or falsy reads as [UNKNOWN]); [None] when it is not a string. *)
Definition gemini_status (toUpperCase : string -> string) (d : jv) : option string :=
  match js_or (oget d "status") (JStr "UNKNOWN") with
  | JStr s => Some (toUpperCase s)
  | _ => None
  end.

(** [geminiService]: the extracted track list has no null entry and no
    entry with a usable audio URL. *)
Definition gemini_no_usable_track (parse : string -> option jv) (d : jv) : bool :=
  match GeminiService.filter_valid (GeminiService.extract_tracks parse d) with
  | Some [] => true
  | _ => false
  end.

(** [geminiService]: the extracted track list has a null entry, on which
    [getAudioUrl] throws a TypeError. *)
Definition gemini_null_entry (parse : string -> option jv) (d : jv) : bool :=
  match GeminiService.filter_valid (GeminiService.extract_tracks parse d) with
  | None => true
  | Some _ => false
  end.

(** [geminiService]: no track is returned from this payload: the extracted
    list has a null entry or no entry with a usable audio URL. *)
Definition gemini_no_return (parse : string -> option jv) (d : jv) : bool :=
  match GeminiService.filter_valid (GeminiService.extract_tracks parse d) with
  | Some (_ :: _) => false
  | _ => true
  end.



(** [geminiService]: a well-formed response whose status is neither
    [SUCCESS] nor [FAILED] and from which no track is returned. *)
Definition gemini_nonterminal (parse : string -> option jv)
  (toUpperCase : string -> string) (r : http_outcome) : bool :=
  match ok_data r with
  | Some d =>
      match gemini_status toUpperCase d with
      | Some s =>
          negb (String.eqb s "SUCCESS") && negb (String.eqb s "FAILED")
          && gemini_no_return parse d
      | None => false
      end
  | None => false
  end.

(** The unnamed poller: a status string outside the [switch]'s failure
    labels, other than [SUCCESS], containing neither [FAILED] nor [ERROR]. *)
Definition part000_open_status (s : string) : bool :=
  negb (Part000.failure_case (JStr s)) && negb (String.eqb s "SUCCESS")
  && negb (includes s "FAILED") && negb (includes s "ERROR").

(** The unnamed poller: a 2xx, [code === 200] response whose [data.status]
    is such a string, or is missing ([undefined] or [null]). *)
Definition part000_nonterminal (r : http_outcome) : bool :=
  match r with
  | HttpOk res =>
      match get res "code" with
      | Some c =>
          is_num c 200 &&
          match get (oget res "data") "status" with
          | Some (JStr s) => part000_open_status s
          | Some JUndef | Some JNull => true
          | _ => false
          end
      | None => false
      end
  | _ => false
  end.

(** [udioService]: a 2xx feed whose entry for [workId], if any, is neither
    a playable [SUCCESS] nor [FAILED]. *)
Definition udio_nonterminal (workId : string) (r : http_outcome) : bool :=
  match r with
  | HttpOk res =>
      match get res "data" with
      | Some d =>
          match UdioService.find_in workId d with
          | Some track =>
              negb (truthy track)
              || (negb (is_str (oget track "status") "SUCCESS"
                        && truthy (oget track "audio_url"))
                  && negb (is_str (oget track "status") "FAILED"))
          | None => false
          end
      | None => false
      end
  | _ => false
  end.

(** [sunoService]: a well-formed response whose [successFlag] is
    [SUCCESS] but whose [data.response?.audioWavUrl] is falsy. *)
Definition suno_success_no_url (r : http_outcome) : bool :=
  match ok_data r with
  | Some d =>
      is_str (SunoService.status_of d) "SUCCESS"
      && negb (truthy (oget (oget d "response") "audioWavUrl"))
  | None => false
  end.

(** A returned track that the UI can play: status [SUCCESS] and a truthy
    (for a string: non-empty) [audio_url]. *)
Definition playable (t : SunoTask) : Prop :=
  status t = "SUCCESS" /\ truthy (audio_url t) = true.

(** ** Sample inputs *)

(** A [JSON.parse] that rejects everything, and a fixed
    [`${Date.now()}-${Math.random()}`]. *)
Definition no_parse (_ : string) : option jv := None.

Definition fixed_stamp (_ _ : nat) : string := "1700000000000-0.42".

(** A 2xx response whose JSON is [{code: 200, msg: "success", data}]. *)
Definition ok_payload (data : jv) : http_outcome :=
  HttpOk (JObj [("code", JNum 200); ("msg", JStr "success"); ("data", data)]).

Definition server_error : http_outcome := HttpError 503 "Service Unavailable".

Definition suno_pending_resp : http_outcome :=
  ok_payload (JObj [("taskId", JStr "t1"); ("successFlag", JStr "PENDING")]).

Definition suno_success_no_url_resp : http_outcome :=
  ok_payload (JObj [("taskId", JStr "t1"); ("successFlag", JStr "SUCCESS");
                    ("response", JObj [])]).



Definition sample_track : jv :=
  JObj [("audio_url", JStr "https://cdn.example/a.mp3")].

(** A [geminiService] response with the given status and no track. *)
Definition gemini_empty (s : string) : http_outcome :=
  ok_payload (JObj [("status", JStr s); ("response", JObj [("data", JArr [])])]).

(** A [geminiService] response with the given status and the given tracks
    under [data.response.data]. *)
Definition gemini_tracks_data (s : string) (ts : list jv) : jv :=
  JObj [("status", JStr s); ("response", JObj [("data", JArr ts)])].

Definition gemini_tracks (s : string) (ts : list jv) : http_outcome :=
  ok_payload (gemini_tracks_data s ts).

(** A proxy that delivers [data.response] as a JSON text, and a
    [JSON.parse] that decodes it. *)
Definition string_response_data : jv :=
  JObj [("status", JStr "SUCCESS"); ("response", JStr "[]")].

Definition stub_parse (_ : string) : option jv :=
  Some (JObj [("data", JArr [sample_track])]).

Definition udio_feed (workId status : string) : http_outcome :=
  HttpOk (JObj [("data", JArr [JObj [("id", JStr workId); ("status", JStr status)]])]).

Definition other_stamp (i k : nat) : string := "1700000005000-0.97".

(** ** The track-list location order, as the specification states it *)

(** The items of the first candidate that holds an array; no track when
    none does. *)
Fixpoint first_array_location (cands : list jv) : list jv :=
  match cands with
  | [] => []
  | JArr xs :: _ => xs
  | _ :: rest => first_array_location rest
  end.

(** The candidate locations in the order of the specification:
    [data.response.data], [data.response], [data.data],
    [data.response.clips], where [data.response] is read through
    [JSON.parse] when it is a string. *)
Definition candidate_locations (parse : string -> option jv) (data : jv) : list jv :=
  let responseObj := GeminiService.response_obj parse data in
  [oget responseObj "data"; responseObj; oget data "data"; oget responseObj "clips"].

Definition suno_success_resp : http_outcome :=
  ok_payload (JObj [("taskId", JStr "t1"); ("successFlag", JStr "SUCCESS");
                    ("response", JObj [("audioWavUrl", JStr "https://cdn.example/a.wav")])]).

(** The unnamed poller's record-info reply with the given [data]. *)
Definition part000_data (status : string) (sunoData : list jv) : jv :=
  JObj [("taskId", JStr "t1"); ("status", JStr status);
        ("response", JObj [("sunoData", JArr sunoData)]);
        ("errorMessage", JNull)].

Definition part000_track : jv :=
  JObj [("id", JStr "c1"); ("audioUrl", JStr "https://cdn.example/c1.mp3");
        ("title", JStr "Opening")].

(** The value a poll resolved with, or [d]. *)
Definition result_value {A} (d : A) (r : nat * outcome A) : A :=
  match snd r with Resolved v => v | Rejected _ => d end.

(** ** String methods used by the analysis code

    Strings are UTF-8 byte sequences. [{] and [}] are single bytes that
    never occur inside a multi-byte character, so searching and slicing at
    them by byte index cuts the same text as JavaScript's UTF-16 indices. *)

(** [s.indexOf(c)] for a one-character [c]; [None] is [-1]. *)
Fixpoint index_of (s : string) (c : ascii) : option nat :=
  match s with
  | EmptyString => None
  | String d s' => if Ascii.eqb c d then Some 0 else option_map S (index_of s' c)
  end.

(** [s.lastIndexOf(c)] for a one-character [c]; [None] is [-1]. *)
Fixpoint last_index_of (s : string) (c : ascii) : option nat :=
  match s with
  | EmptyString => None
  | String d s' =>
      match last_index_of s' c with
      | Some k => Some (S k)
      | None => if Ascii.eqb c d then Some 0 else None
      end
  end.

(** [s.slice(a, b)] for non-negative [a] and [b]: empty when [b <= a]. *)
Definition slice (s : string) (a b : nat) : string := substring a (b - a) s.

(** [xs.indexOf(v)], [xs.lastIndexOf(v)] and [xs.slice(a, b)] on arrays,
    for a string [v]. *)
Fixpoint list_index_of (xs : list jv) (v : string) : option nat :=
  match xs with
  | [] => None
  | x :: rest => if is_str x v then Some 0 else option_map S (list_index_of rest v)
  end.

Fixpoint list_last_index_of (xs : list jv) (v : string) : option nat :=
  match xs with
  | [] => None
  | x :: rest =>
      match list_last_index_of rest v with
      | Some k => Some (S k)
      | None => if is_str x v then Some 0 else None
      end
  end.

Definition list_slice (xs : list jv) (a b : nat) : list jv :=
  firstn (b - a) (skipn a xs).

Definition byte (n : nat) : ascii := ascii_of_nat n.

(** Length of the white space or line terminator [trim] removes at the
    start of [s]: the ASCII ones and the UTF-8 encodings of U+00A0,
    U+1680, U+2000-U+200A, U+2028, U+2029, U+202F, U+205F, U+3000 and
    U+FEFF; [0] when [s] does not start with one. *)
Definition ws_len (s : string) : nat :=
  match s with
  | String c rest =>
      let n := nat_of_ascii c in
      if (Nat.leb 9 n && Nat.leb n 13) || Nat.eqb n 32 then 1
      else if Nat.eqb n 194 then
        (match rest with String d _ => if Nat.eqb (nat_of_ascii d) 160 then 2 else 0
                         | EmptyString => 0 end)
      else
        match rest with
        | String d (String e _) =>
            let m := nat_of_ascii d in
            let k := nat_of_ascii e in
            if (Nat.eqb n 225 && Nat.eqb m 154 && Nat.eqb k 128)
               || (Nat.eqb n 226 && Nat.eqb m 128
                   && ((Nat.leb 128 k && Nat.leb k 138) || Nat.eqb k 168
                       || Nat.eqb k 169 || Nat.eqb k 175))
               || (Nat.eqb n 226 && Nat.eqb m 129 && Nat.eqb k 159)
               || (Nat.eqb n 227 && Nat.eqb m 128 && Nat.eqb k 128)
               || (Nat.eqb n 239 && Nat.eqb m 187 && Nat.eqb k 191)
            then 3 else 0
        | _ => 0
        end
  | EmptyString => 0
  end.

Fixpoint drop (k : nat) (s : string) : string :=
  match k, s with
  | O, _ => s
  | S k', String _ s' => drop k' s'
  | S _, EmptyString => EmptyString
  end.

(** [s.trimStart()], with the length of [s] as fuel, and [s.trimEnd()]:
    a suffix is dropped when it is white space only. *)
Fixpoint trim_start_aux (fuel : nat) (s : string) : string :=
  match fuel with
  | O => s
  | S f => match ws_len s with O => s | k => trim_start_aux f (drop k s) end
  end.

Definition trim_start (s : string) : string := trim_start_aux (String.length s) s.

Fixpoint trim_end (s : string) : string :=
  match s with
  | EmptyString => EmptyString
  | String c s' => if String.eqb (trim_start s) "" then "" else String c (trim_end s')
  end.

(** [s.trim()] *)
Definition trim (s : string) : string := trim_end (trim_start s).

Definition nl : string := String (byte 10) EmptyString.
Definition dq : string := String (byte 34) EmptyString.

(** Lines joined by a newline: a multi-line template literal. *)
Fixpoint unlines (ls : list string) : string :=
  match ls with
  | [] => ""
  | [l] => l
  | l :: rest => l ++ nl ++ unlines rest
  end.

(** [a ?? b] *)
Definition coalesce (a b : jv) : jv := if nullish a then b else a.

(** [v?.[0]]: the first element of an array, property ["0"] of an
    object, the first character of a string. *)
Definition idx0 (v : jv) : jv :=
  match v with
  | JArr (x :: _) => x
  | JObj fs => lookup_field "0" fs
  | JStr (String c _) => JStr (String c EmptyString)
  | _ => JUndef
  end.

(** [v.trim()] on a value typed as an optional string: [None] is the
    TypeError of calling [trim] on a non-string. *)
Definition trim_opt (v : jv) : option jv :=
  match v with
  | JUndef | JNull => Some JUndef
  | JStr s => Some (JStr (trim s))
  | _ => None
  end.

(** ** [src/services/geminiService.ts], lines 1-157: video upload and
    script analysis *)
Module GeminiAnalysis.

(** [ScriptAnalysis] of [src/types.ts]. *)
Record ScriptAnalysis : Type := {
  summary : jv;
  music_prompt : jv;
  mood : jv;
  title : jv
}.

(** The requests sent, in order: the File API upload of the video and the
    [generateContent] call with its [parts]. *)
Inductive request : Type :=
| Upload (url : string)
| Generate (url : string) (parts : list jv).

Definition request_url (q : request) : string :=
  match q with Upload u => u | Generate u _ => u end.

(** [GEMINI_API_KEY] (line 4), from [process.env]. *)
Definition GEMINI_API_KEY (env_gemini env_api : jv) : jv := js_or env_gemini env_api.

Definition upload_url (key : jv) : string :=
  "https://generativelanguage.googleapis.com/upload/v1beta/files?key=" ++ to_string key.

Definition generate_url (key : jv) : string :=
  "https://generativelanguage.googleapis.com/v1beta/models/gemini-1.5-flash:generateContent?key="
  ++ to_string key.

Definition no_key : string := "GEMINI_API_KEY is not configured".

Definition no_uri : string := "Upload succeeded but no file URI returned from Gemini.".

(** [uploadVideoToGemini] (lines 11-43) for one [fetch] outcome: the
    requests sent and the [{ uri, mimeType }] it resolves with. *)
Definition uploadVideoToGemini (key : jv) (r : http_outcome)
  : list request * outcome (jv * jv) :=
  if negb (truthy key) then ([], Rejected (Error no_key)) else
  ([Upload (upload_url key)],
   match r with
   | FetchRejected m | HttpErrorUnread _ m | BadJson m => Rejected (Error m)
   | HttpError code text =>
       Rejected (Error ("Failed to upload video: " ++ number_to_string code ++ " - " ++ text))
   | HttpOk data =>
       match get data "file" with
       | None => Rejected TypeError
       | Some f =>
           if negb (truthy f) then Rejected (Error no_uri) else
           match get f "uri" with
           | None => Rejected TypeError
           | Some u =>
               if negb (truthy u) then Rejected (Error no_uri)
               else Resolved (u, oget f "mimeType")
           end
       end
   end).

(** [systemPrompt] (lines 74-83). *)
Definition systemPrompt : string :=
  unlines [
    "You are a film and soundtrack expert. Analyze the given video (if present) together with the script/description.";
    "";
    "Return ONLY a strict JSON object with the following fields (no markdown, no extra text):";
    "{";
    "  " ++ dq ++ "summary" ++ dq ++ ": " ++ dq ++ "2-4 sentences summarizing the story and visuals." ++ dq ++ ",";
    "  " ++ dq ++ "music_prompt" ++ dq ++ ": " ++ dq ++ "1-2 sentences describing the ideal background music." ++ dq ++ ",";
    "  " ++ dq ++ "mood" ++ dq ++ ": " ++ dq ++ "short phrase describing overall mood, e.g. 'tense and mysterious'." ++ dq ++ ",";
    "  " ++ dq ++ "title" ++ dq ++ ": " ++ dq ++ "short cinematic title for the soundtrack." ++ dq;
    "}"].

Definition no_script_text : string :=
  "No script text provided. Infer as much as you can from the video alone.".

(** The second text part (lines 88-91). *)
Definition script_part (scriptText : string) : jv :=
  JObj [("text", JStr (
    if negb (String.eqb scriptText "") && negb (String.eqb (trim scriptText) "")
    then "SCRIPT_OR_DESCRIPTION:" ++ nl ++ scriptText
    else no_script_text))].

Definition file_part (uri mimeType : jv) : jv :=
  JObj [("fileData", JObj [("fileUri", uri); ("mimeType", mimeType)])].

Fixpoint map_text (ps : list jv) : option (list jv) :=
  match ps with
  | [] => Some []
  | p :: rest =>
      match get p "text", map_text rest with
      | Some t, Some ts => Some (t :: ts)
      | _, _ => None
      end
  end.

Fixpoint join_nl (xs : list string) : string :=
  match xs with
  | [] => ""
  | [x] => x
  | x :: rest => x ++ nl ++ join_nl rest
  end.

(** [rawText] (lines 122-126); [None] is a TypeError. *)
Definition raw_text (data : jv) : option jv :=
  match get data "candidates" with
  | None => None
  | Some c =>
      let ps := oget (oget (idx0 c) "content") "parts" in
      let first := oget (idx0 ps) "text" in
      if negb (nullish first) then Some first else
      match ps with
      | JUndef | JNull => Some JUndef
      | JArr xs =>
          match map_text xs with
          | None => None
          | Some ts => Some (JStr (join_nl (map to_string (filter truthy ts))))
          end
      | _ => None
      end
  end.

Section Runtime.
Variable JSON_parse : string -> option jv.

(** [jsonString] (lines 134-139); [None] is a TypeError ([rawText] has no
    [indexOf]). *)
Definition json_string (rawText : jv) : option jv :=
  match rawText with
  | JStr s =>
      Some (JStr (match index_of s "{"%char, last_index_of s "}"%char with
                  | Some a, Some b => slice s a (b + 1)
                  | _, _ => s
                  end))
  | JArr xs =>
      Some (match list_index_of xs "{", list_last_index_of xs "}" with
            | Some a, Some b => JArr (list_slice xs a (b + 1))
            | _, _ => rawText
            end)
  | _ => None
  end.

(** The [try] block of lines 133-151; [None]: it throws. [JSON.parse]
    converts its argument to a string. *)
Definition parse_analysis (rawText : jv) : option ScriptAnalysis :=
  match json_string rawText with
  | None => None
  | Some js =>
      match JSON_parse (to_string js) with
      | None => None
      | Some parsed =>
          if nullish parsed then None else
          Some {| summary := coalesce (oget parsed "summary") (JStr "");
                  music_prompt := coalesce (oget parsed "music_prompt") (JStr "");
                  mood := coalesce (oget parsed "mood") (JStr "");
                  title := coalesce (oget parsed "title") (JStr "") |}
      end
  end.

Definition parse_failed : string :=
  "Failed to parse Gemini response as JSON. Check console output.".

Definition no_text : string := "No text content returned from Gemini.".

(** Lines 113-155, for the outcome of the [generateContent] request. *)
Definition analysis_result (r : http_outcome) : outcome ScriptAnalysis :=
  match r with
  | FetchRejected m | HttpErrorUnread _ m | BadJson m => Rejected (Error m)
  | HttpError code text =>
      Rejected (Error ("Gemini API error: " ++ number_to_string code ++ " - " ++ text))
  | HttpOk data =>
      match raw_text data with
      | None => Rejected TypeError
      | Some rawText =>
          if negb (truthy rawText) then Rejected (Error no_text) else
          match parse_analysis rawText with
          | None => Rejected (Error parse_failed)
          | Some a => Resolved a
          end
      end
  end.

(** [analyzeScriptAndGeneratePrompts] (lines 51-157) with a video file
    present or not, and the outcomes of the upload and of the analysis
    request. *)
Definition analyzeScriptAndGeneratePrompts (key : jv) (scriptText : string)
  (videoFile : bool) (upload_r r : http_outcome)
  : list request * outcome ScriptAnalysis :=
  if negb (truthy key) then ([], Rejected (Error no_key)) else
  let '(log, video_parts) :=
    if videoFile then
      let '(l, o) := uploadVideoToGemini key upload_r in
      (l, match o with
          | Rejected e => Rejected e
          | Resolved (uri, mimeType) => Resolved [file_part uri mimeType]
          end)
    else ([], Resolved []) in
  match video_parts with
  | Rejected e => (log, Rejected e)
  | Resolved vp =>
      (app log [Generate (generate_url key)
                 (app vp [JObj [("text", JStr systemPrompt)]; script_part scriptText])],
       analysis_result r)
  end.

End Runtime.
End GeminiAnalysis.

(** ** [src/App.tsx]: [handleAnalyzeScript] (lines 43-92) *)
Module AnalyzeApp.
Import GeminiAnalysis.

Record app_state : Type := {
  isLoading : bool;
  error : option string;
  analysis : option ScriptAnalysis
}.

Definition missing_input : string := "请先上传视频或填写脚本 / 描述。".

(** The message of [setError]: every value the analysis rejects with is an
    [Error], so the 'unknown error' text is never chosen; a TypeError
    carries the engine's message [type_error_message]. *)
Definition error_text (type_error_message : string) (e : exn) : string :=
  "An error occurred: " ++
  match e with Error m => m | TypeError => type_error_message end.

(** [late]: the analysis settles after the 120-second [timeoutPromise]
    of [Promise.race]. *)
Definition handleAnalyzeScript (JSON_parse : string -> option jv)
  (type_error_message : string) (key : jv) (scriptText : string)
  (videoFile useVideo late : bool) (upload_r r : http_outcome) (st : app_state)
  : list request * app_state :=
  if String.eqb (trim scriptText) "" && negb videoFile
  then ([], {| isLoading := isLoading st; error := Some missing_input;
               analysis := analysis st |})
  else
    let effectiveVideoFile := if useVideo then videoFile else false in
    let '(log, o) :=
      analyzeScriptAndGeneratePrompts JSON_parse key scriptText effectiveVideoFile upload_r r in
    let o' := if late then Rejected (Error "Gemini analysis timeout") else o in
    match o' with
    | Resolved a => (log, {| isLoading := false; error := None; analysis := Some a |})
    | Rejected e =>
        (log, {| isLoading := false; error := Some (error_text type_error_message e);
                 analysis := None |})
    end.

End AnalyzeApp.

(** ** [src/api/gemini-analyze.ts]: the serverless [handler] *)
Module AnalyzeApi.

(** What the handler sends: [res.status(status)], the headers set with
    [res.setHeader] and the JSON body. *)
Record reply : Type := {
  status : Z;
  headers : list (string * string);
  body : jv
}.

(** The proxy's answer: [fetch] or [text()] rejecting, or a status with
    its body text. *)
Inductive upstream : Type :=
| UpRejected (message : string)
| UpResponse (status : Z) (text : string).

Definition ok (st : Z) : bool := (200 <=? st)%Z && (st <=? 299)%Z.

Definition json_reply (st : Z) (b : jv) : reply :=
  {| status := st; headers := []; body := b |}.

Definition error_reply (st : Z) (m : string) : reply :=
  json_reply st (JObj [("error", JStr m)]).

(** The instructions of [textPrompt] (lines 56-67). *)
Definition instructions : string :=
  unlines [
    "You are a professional film score composer.";
    "You will receive a video (and optionally its script / description).";
    "Your goal is to create a single, cohesive music generation prompt that acts as the soundtrack for the entire video.";
    "";
    "Return a JSON object with the following fields:";
    "1. summary: A brief 1-sentence summary of the video's content.";
    "2. mood: 2-3 words describing the emotional tone (e.g., " ++ dq ++ "Melancholic, Hopeful" ++ dq ++ ").";
    "3. title: A creative title for the soundtrack.";
    "4. music_prompt: A detailed description for an AI music generator (Suno).";
    "   - Focus on instruments, tempo, genre, and atmosphere.";
    "   - Do NOT include lyrics.";
    "   - Keep it under 450 characters."].

(** [textPrompt] (lines 55-73). *)
Definition textPrompt (scriptSegment : string) : string :=
  trim (nl ++ instructions ++ nl ++ nl ++
        (if negb (String.eqb scriptSegment "")
         then "Here is the script or description of the video:" ++ nl ++ nl ++ scriptSegment
         else "No script was provided. Infer everything from the video only.")
        ++ nl ++ "    ").

Definition video_part (video : jv) : jv :=
  JObj [("inline_data", JObj [("mime_type", js_or (oget video "mimeType") (JStr "video/mp4"));
                              ("data", oget video "data")])].

(** [upstreamBody] (lines 77-84). *)
Definition upstream_body (scriptSegment : string) (video : jv) : jv :=
  JObj [("contents", JArr [JObj [("role", JStr "user");
    ("parts", JArr (app (if truthy video then [video_part video] else [])
                        [JObj [("text", JStr (textPrompt scriptSegment))]]))]])].

Definition no_text : string := "Gemini 返回的结果中没有文本内容。".
Definition bad_json : string := "Gemini 返回的 JSON 格式不合法，解析失败。".
Definition missing_input : string := "请至少提供视频或剧本/描述之一。".

Section Runtime.
Variable JSON_parse : string -> option jv.

(** [jsonSlice] (lines 123-128). *)
Definition json_slice (text : string) : string :=
  match index_of text "{"%char, last_index_of text "}"%char with
  | Some a, Some b => if Nat.ltb a b then slice text a (b + 1) else text
  | _, _ => text
  end.

(** The outer [catch] (lines 142-147): [err?.message || 'Unknown server error']. *)
Definition catch_reply (m : string) : reply :=
  error_reply 500 (if String.eqb m "" then "Unknown server error" else m).

(** Lines 95-141, from the proxy's answer. *)
Definition after_upstream (up : upstream) : reply :=
  match up with
  | UpRejected m => catch_reply m
  | UpResponse st upstreamText =>
      if negb (ok st)
      then json_reply st (JObj [("error", JStr "Gemini upstream error");
                                ("status", JNum st); ("body", JStr upstreamText)])
      else
        let text :=
          match JSON_parse upstreamText with
          | Some data =>
              coalesce (oget (idx0 (oget (oget (idx0 (oget data "candidates")) "content") "parts"))
                             "text") JNull
          | None => JStr upstreamText
          end in
        match text with
        | JStr s =>
            if String.eqb s "" then error_reply 500 no_text else
            match JSON_parse (json_slice s) with
            | None => json_reply 500 (JObj [("error", JStr bad_json); ("raw", JStr s)])
            | Some parsed => json_reply 200 parsed
            end
        | _ => error_reply 500 no_text
        end
  end.

(** [handler] (lines 6-148) for a request with [method] and [req.body],
    the environment's [GEMINI_API_KEY] and the proxy's answer: the bodies
    sent upstream and the reply. A TypeError carries the engine's
    message [type_error_message]. *)
Definition handler (type_error_message : string) (apiKey : jv)
  (method : string) (reqBody : jv) (up : upstream) : list jv * reply :=
  if negb (String.eqb method "POST")
  then ([], {| status := 405; headers := [("Allow", "POST")];
               body := JObj [("error", JStr "Method not allowed")] |})
  else if negb (truthy apiKey) then ([], error_reply 500 "GEMINI_API_KEY 未配置")
  else
    match (match reqBody with JStr s => JSON_parse s | b => Some b end) with
    | None => ([], error_reply 400 "Invalid JSON body")
    | Some b =>
        let bodyData := js_or b (JObj []) in
        let scriptText := oget bodyData "scriptText" in
        let video := oget bodyData "video" in
        match trim_opt scriptText with
        | None => ([], catch_reply type_error_message)
        | Some t =>
            if negb (truthy t) && negb (truthy video)
            then ([], error_reply 400 missing_input)
            else
              let scriptSegment := trim (to_string (js_or scriptText (JStr ""))) in
              ([upstream_body scriptSegment video], after_upstream up)
        end
    end.

End Runtime.
End AnalyzeApi.

(** A [JSON.parse] that accepts only the text [{}]. *)
Definition json_stub (s : string) : option jv :=
  if String.eqb s "{}" then Some (JObj []) else None.

(** A [generateContent] reply with one candidate and the given parts. *)
Definition candidates_fields (parts : list jv) : list (string * jv) :=
  [("candidates", JArr [JObj [("content", JObj [("parts", JArr parts)])]])].

(** The page state before an analysis. *)
Definition empty_app_state : AnalyzeApp.app_state :=
  {| AnalyzeApp.isLoading := false; AnalyzeApp.error := None; AnalyzeApp.analysis := None |}.

(** ** Generic facts about the polling skeleton *)

Section PollLoopFacts.
Context {State A : Type}.
Variable body : nat -> http_outcome -> State -> step A * State.
Variable rethrow : exn -> bool.
Variable timeout : State -> exn.
Variable resp : nat -> http_outcome.

Lemma poll_loop_continue f i st st' :
  body i (resp i) st = (Continue, st') ->
  poll_loop body rethrow timeout resp (S f) i st
  = poll_loop body rethrow timeout resp f (S i) st'.
Proof. intros H; simpl; rewrite H; reflexivity. Qed.

Lemma poll_loop_return f i st v st' :
  body i (resp i) st = (Return v, st') ->
  poll_loop body rethrow timeout resp (S f) i st = (S i, Resolved v).
Proof. intros H; simpl; rewrite H; reflexivity. Qed.

Lemma poll_loop_throw f i st e st' :
  body i (resp i) st = (Throw e, st') -> rethrow e = true ->
  poll_loop body rethrow timeout resp (S f) i st = (S i, Rejected e).
Proof. intros H He; simpl; rewrite H, He; reflexivity. Qed.

Lemma poll_loop_swallow f i st e st' :
  body i (resp i) st = (Throw e, st') -> rethrow e = false ->
  poll_loop body rethrow timeout resp (S f) i st
  = poll_loop body rethrow timeout resp f (S i) st'.
Proof. intros H He; simpl; rewrite H, He; reflexivity. Qed.

(** An attempt that continues or throws an error the catch swallows. *)
Lemma poll_loop_pass f i st c st' :
  body i (resp i) st = (c, st') ->
  (c = Continue \/ exists e, c = Throw e /\ rethrow e = false) ->
  poll_loop body rethrow timeout resp (S f) i st
  = poll_loop body rethrow timeout resp f (S i) st'.
Proof.
  intros H [->|[e [-> He]]]; [apply poll_loop_continue | eapply poll_loop_swallow]; eassumption.
Qed.

(** Every value the loop resolves with was returned by the body. *)
Lemma poll_loop_resolved (P : A -> Prop) :
  (forall i r st v st', body i r st = (Return v, st') -> P v) ->
  forall f i st n v,
    poll_loop body rethrow timeout resp f i st = (n, Resolved v) -> P v.
Proof.
  intros HP f; induction f as [|f IH]; intros i st n v H; simpl in H.
  - discriminate.
  - destruct (body i (resp i) st) as [r st'] eqn:Hb.
    destruct r as [|w|e].
    + eapply IH; exact H.
    + inversion H; subst; eapply HP; exact Hb.
    + destruct (rethrow e); [discriminate | eapply IH; exact H].
Qed.


End PollLoopFacts.

Lemma fuel_split (max i : nat) : i < max -> max - i = S (max - S i).
Proof. lia. Qed.

(** ** The consecutive-error budget of [sunoService] and [geminiService] *)












Lemma filter_guard_nil parse d :
  gemini_no_usable_track parse d = true ->
  (if Nat.ltb 0 (length (GeminiService.extract_tracks parse d))
   then GeminiService.filter_valid (GeminiService.extract_tracks parse d)
   else Some []) = Some [].
Proof.
  unfold gemini_no_usable_track.
  destruct (GeminiService.extract_tracks parse d) as [|t ts]; [reflexivity|].
  cbn [length Nat.ltb Nat.leb].
  destruct (GeminiService.filter_valid (t :: ts)) as [[|x xs]|];
    congruence.
Qed.

Lemma gemini_body_quiet parse nr up i r st d s :
  ok_data r = Some d -> gemini_status up d = Some s ->
  gemini_no_usable_track parse d = true ->
  GeminiService.body parse nr up i r st
  = (if String.eqb s "SUCCESS" then
       (Throw (Error (if Nat.ltb 0 (length (GeminiService.extract_tracks parse d))
          then "Generation marked as complete, but audio URLs were missing from the response."
          else "Generation marked as complete, but no track data was returned.")),
        {| GeminiService.consecutiveErrors := 0; GeminiService.lastKnownStatus := s |})
     else if String.eqb s "FAILED" then
       (Throw (Error ("Suno API task failed: "
          ++ to_string (js_or (oget d "errorMessage") (JStr "Unknown error")))),
        {| GeminiService.consecutiveErrors := 0; GeminiService.lastKnownStatus := s |})
     else
       (Continue,
        {| GeminiService.consecutiveErrors := 0; GeminiService.lastKnownStatus := s |})).
Proof.
  unfold ok_data, gemini_status; intros Hd Hs Hq.
  destruct r as [m|code text|code m|m|res]; try discriminate.
  destruct (get res "code") as [c|] eqn:Hc; [|discriminate].
  destruct (is_num c 200) eqn:E; [|discriminate].
  destruct (truthy (oget res "data")) eqn:T; [|discriminate].
  injection Hd as <-.
  unfold GeminiService.body; rewrite Hc, E; cbv zeta; cbn [negb]; rewrite T.
  cbn [negb].
  destruct (js_or (oget (oget res "data") "status") (JStr "UNKNOWN")) as [| | | |s0| |];
    try discriminate.
  injection Hs as <-.
  rewrite (filter_guard_nil _ _ Hq); reflexivity.
Qed.

Lemma filter_guard_null parse d :
  gemini_null_entry parse d = true ->
  (if Nat.ltb 0 (length (GeminiService.extract_tracks parse d))
   then GeminiService.filter_valid (GeminiService.extract_tracks parse d)
   else Some []) = None.
Proof.
  unfold gemini_null_entry.
  destruct (GeminiService.extract_tracks parse d) as [|t ts]; [discriminate|].
  cbn [length Nat.ltb Nat.leb].
  destruct (GeminiService.filter_valid (t :: ts)); congruence.
Qed.

(** A null entry in the track list: [getAudioUrl(null)] throws a TypeError
    after the status has been recorded. *)
Lemma gemini_body_null parse nr up i r st d s :
  ok_data r = Some d -> gemini_status up d = Some s ->
  gemini_null_entry parse d = true ->
  GeminiService.body parse nr up i r st
  = (Throw TypeError,
     {| GeminiService.consecutiveErrors := 0; GeminiService.lastKnownStatus := s |}).
Proof.
  unfold ok_data, gemini_status; intros Hd Hs Hq.
  destruct r as [m|code text|code m|m|res]; try discriminate.
  destruct (get res "code") as [c|] eqn:Hc; [|discriminate].
  destruct (is_num c 200) eqn:E; [|discriminate].
  destruct (truthy (oget res "data")) eqn:T; [|discriminate].
  injection Hd as <-.
  unfold GeminiService.body; rewrite Hc, E; cbv zeta; cbn [negb]; rewrite T.
  cbn [negb].
  destruct (js_or (oget (oget res "data") "status") (JStr "UNKNOWN")) as [| | | |s0| |];
    try discriminate.
  injection Hs as <-.
  rewrite (filter_guard_null _ _ Hq); reflexivity.
Qed.

Lemma no_return_cases parse d :
  gemini_no_return parse d = true ->
  gemini_null_entry parse d = true \/ gemini_no_usable_track parse d = true.
Proof.
  unfold gemini_no_return, gemini_null_entry, gemini_no_usable_track.
  destruct (GeminiService.filter_valid _) as [[|x xs]|]; auto.
Qed.

(** A well-formed response from which no track is returned and whose
    status is neither [SUCCESS] nor [FAILED] ends the attempt without a
    result and without an error that leaves the loop; the status is
    recorded and the counter reset. *)
Lemma gemini_body_open parse nr up i r st d s :
  ok_data r = Some d -> gemini_status up d = Some s ->
  gemini_no_return parse d = true ->
  String.eqb s "SUCCESS" = false -> String.eqb s "FAILED" = false ->
  exists c, GeminiService.body parse nr up i r st
    = (c, {| GeminiService.consecutiveErrors := 0; GeminiService.lastKnownStatus := s |}) /\
    (c = Continue \/ exists e, c = Throw e /\ GeminiService.rethrow e = false).
Proof.
  intros Hd Hs Hn H1 H2.
  destruct (no_return_cases _ _ Hn) as [Hq|Hq].
  - exists (Throw TypeError); split; [exact (gemini_body_null parse nr up i r st d s Hd Hs Hq)|].
    right; exists TypeError; split; reflexivity.
  - exists Continue; split; [|left; reflexivity].
    rewrite (gemini_body_quiet parse nr up i r st d s Hd Hs Hq), H1, H2; reflexivity.
Qed.


Lemma length_pos_nonempty {A} (l : list A) : 0 < length l -> l <> [].
Proof. destruct l; simpl; [lia|discriminate]. Qed.

Lemma filter_guard_some ts vs :
  GeminiService.filter_valid ts = Some vs -> vs <> [] ->
  (if Nat.ltb 0 (length ts) then GeminiService.filter_valid ts else Some []) = Some vs.
Proof.
  destruct ts as [|t ts]; intros H Hn; [|exact H].
  injection H as <-; contradiction.
Qed.

Lemma gemini_body_tracks parse nr up i r st d s vs :
  ok_data r = Some d -> gemini_status up d = Some s ->
  GeminiService.filter_valid (GeminiService.extract_tracks parse d) = Some vs ->
  vs <> [] ->
  GeminiService.body parse nr up i r st
  = (Return (GeminiService.to_tasks nr i 0 vs),
     {| GeminiService.consecutiveErrors := 0; GeminiService.lastKnownStatus := s |}).
Proof.
  unfold ok_data, gemini_status; intros Hd Hs Hf Hn.
  destruct r as [m|code text|code m|m|res]; try discriminate.
  destruct (get res "code") as [c|] eqn:Hc; [|discriminate].
  destruct (is_num c 200) eqn:E; [|discriminate].
  destruct (truthy (oget res "data")) eqn:T; [|discriminate].
  injection Hd as <-.
  unfold GeminiService.body; rewrite Hc, E; cbv zeta; cbn [negb]; rewrite T.
  cbn [negb].
  destruct (js_or (oget (oget res "data") "status") (JStr "UNKNOWN")) as [| | | |s0| |];
    try discriminate.
  injection Hs as <-.
  rewrite (filter_guard_some _ _ Hf Hn).
  destruct vs as [|v vs]; [contradiction|reflexivity].
Qed.

Lemma gemini_run_tracks parse nr up resp i st d s vs :
  i < GeminiService.MAX_ATTEMPTS ->
  ok_data (resp i) = Some d -> gemini_status up d = Some s ->
  GeminiService.filter_valid (GeminiService.extract_tracks parse d) = Some vs ->
  vs <> [] ->
  GeminiService.run parse nr up resp (GeminiService.MAX_ATTEMPTS - i) i st
  = (S i, Resolved (GeminiService.to_tasks nr i 0 vs)).
Proof.
  intros Hi Hd Hs Hf Hn.
  unfold GeminiService.run; rewrite (fuel_split _ _ Hi).
  eapply poll_loop_return; exact (gemini_body_tracks parse nr up i (resp i) st d s vs Hd Hs Hf Hn).
Qed.

(** A null entry in the extracted list: the TypeError is caught and the
    poll goes on with the status recorded, whatever the other tracks. *)
Lemma gemini_run_null parse nr up resp i st d s :
  i < GeminiService.MAX_ATTEMPTS ->
  ok_data (resp i) = Some d -> gemini_status up d = Some s ->
  gemini_null_entry parse d = true ->
  GeminiService.run parse nr up resp (GeminiService.MAX_ATTEMPTS - i) i st
  = GeminiService.run parse nr up resp (GeminiService.MAX_ATTEMPTS - S i) (S i)
      {| GeminiService.consecutiveErrors := 0; GeminiService.lastKnownStatus := s |}.
Proof.
  intros Hi Hd Hs Hq.
  unfold GeminiService.run; rewrite (fuel_split _ _ Hi).
  eapply poll_loop_swallow; [exact (gemini_body_null parse nr up i (resp i) st d s Hd Hs Hq)|].
  reflexivity.
Qed.


(** ** Non-terminal responses and the attempt budget *)



Lemma gemini_body_nonterminal parse nr up i r st :
  gemini_nonterminal parse up r = true ->
  exists d s c, ok_data r = Some d /\ gemini_status up d = Some s /\
    GeminiService.body parse nr up i r st
    = (c, {| GeminiService.consecutiveErrors := 0;
             GeminiService.lastKnownStatus := s |}) /\
    (c = Continue \/ exists e, c = Throw e /\ GeminiService.rethrow e = false).
Proof.
  unfold gemini_nonterminal; intros H.
  destruct (ok_data r) as [d|] eqn:Hd; [|discriminate].
  destruct (gemini_status up d) as [s|] eqn:Hs; [|discriminate].
  apply andb_prop in H as [H H3]; apply andb_prop in H as [H1 H2].
  apply negb_true_iff in H1, H2.
  destruct (gemini_body_open parse nr up i r st d s Hd Hs H3 H1 H2) as [c [Hb Hc]].
  exists d, s, c; repeat split; assumption.
Qed.

Lemma part000_body_nonterminal i r :
  part000_nonterminal r = true ->
  exists c, Part000.body i r tt = (c, tt) /\
    (c = Continue \/ exists e, c = Throw e /\ Part000.rethrow e = false).
Proof.
  unfold part000_nonterminal; intros H.
  destruct r as [m|code text|code m|m|res]; try discriminate.
  destruct (get res "code") as [c|] eqn:Hc; [|discriminate].
  apply andb_prop in H as [E H].
  unfold Part000.body; rewrite Hc, E; cbv zeta; cbn [negb].
  destruct (get (oget res "data") "status") as [v|] eqn:Hs; [|discriminate].
  destruct v as [| | | |s| |]; try discriminate.
  - eexists; split; [reflexivity|right; eexists; split; reflexivity].
  - eexists; split; [reflexivity|right; eexists; split; reflexivity].
  - unfold part000_open_status in H.
    apply andb_prop in H as [H H4]; apply andb_prop in H as [H H3];
      apply andb_prop in H as [H1 H2].
    apply negb_true_iff in H1, H2, H3, H4.
    rewrite H1; cbn [is_str Part000.js_includes]; rewrite H2, H3, H4.
    eexists; split; [reflexivity|left; reflexivity].
Qed.

Lemma udio_body_nonterminal workId i r :
  udio_nonterminal workId r = true ->
  exists c, UdioService.body workId i r tt = (c, tt) /\
    (c = Continue \/ exists e, c = Throw e /\ UdioService.rethrow e = false).
Proof.
  unfold udio_nonterminal; intros H.
  destruct r as [m|code text|code m|m|res]; try discriminate.
  destruct (get res "data") as [d|] eqn:Hd; [|discriminate].
  destruct (UdioService.find_in workId d) as [track|] eqn:Hf; [|discriminate].
  unfold UdioService.body; rewrite Hd, Hf.
  exists Continue; split; [|left; reflexivity].
  destruct (truthy track); [|reflexivity].
  cbn [negb orb] in H; apply andb_prop in H as [H1 H2].
  apply negb_true_iff in H1, H2; rewrite H1, H2; reflexivity.
Qed.


(** ** What a resolved poll returns *)

Ltac destruct_in H :=
  repeat match type of H with
         | context [match ?x with _ => _ end] => destruct x eqn:?; try discriminate
         end.

Lemma suno_return_playable i r st v st' :
  SunoService.body i r st = (Return v, st') ->
  v <> [] /\ Forall playable v.
Proof.
  unfold SunoService.body; intros H; cbv zeta in H.
  destruct_in H.
  injection H as <- _.
  split; [discriminate|].
  constructor; [split; [reflexivity|assumption]|constructor].
Qed.

Lemma filter_valid_usable ts vs :
  GeminiService.filter_valid ts = Some vs ->
  Forall (fun t => exists u, GeminiService.getAudioUrl t = Some u /\ truthy u = true) vs.
Proof.
  revert vs; induction ts as [|t ts IH]; intros vs H; simpl in H.
  - injection H as <-; constructor.
  - destruct (GeminiService.getAudioUrl t) as [u|] eqn:Hu; [|discriminate].
    destruct (GeminiService.filter_valid ts) as [ws|]; [|discriminate].
    injection H as <-.
    destruct (truthy u) eqn:Tu.
    + constructor; [exists u; split; assumption|apply IH; reflexivity].
    + apply IH; reflexivity.
Qed.

Lemma to_tasks_playable nr i : forall vs k,
  Forall (fun t => exists u, GeminiService.getAudioUrl t = Some u /\ truthy u = true) vs ->
  Forall playable (GeminiService.to_tasks nr i k vs).
Proof.
  induction vs as [|t vs IH]; intros k H; simpl; [constructor|].
  inversion H as [|? ? [u [Hu Tu]] Hvs]; subst.
  constructor; [|apply IH; exact Hvs].
  split; [reflexivity|]; simpl; rewrite Hu; exact Tu.
Qed.

Lemma to_tasks_length nr i : forall vs k,
  length (GeminiService.to_tasks nr i k vs) = length vs.
Proof. induction vs as [|t vs IH]; intros k; simpl; [|rewrite IH]; reflexivity. Qed.

Lemma gemini_return_playable parse nr up i r st v st' :
  GeminiService.body parse nr up i r st = (Return v, st') ->
  v <> [] /\ Forall playable v.
Proof.
  unfold GeminiService.body; intros H; cbv zeta in H.
  destruct_in H.
  injection H as <- _.
  match goal with
  | Hf : (if _ then GeminiService.filter_valid ?ts else Some []) = Some ?l,
    Hl : Nat.ltb 0 (length ?l) = true |- _ =>
      assert (Hv : GeminiService.filter_valid ts = Some l)
        by (destruct (Nat.ltb 0 (length ts)); [exact Hf|
            injection Hf as <-; discriminate]);
      split;
      [ intros E; apply (f_equal (@length _)) in E;
        rewrite to_tasks_length in E; rewrite E in Hl; discriminate
      | apply to_tasks_playable, filter_valid_usable with (1 := Hv) ]
  end.
Qed.

Lemma suno_resolved_playable resp f i st n v :
  SunoService.run resp f i st = (n, Resolved v) -> v <> [] /\ Forall playable v.
Proof.
  apply (poll_loop_resolved _ _ _ _ (fun v => v <> [] /\ Forall playable v)).
  exact suno_return_playable.
Qed.

Lemma gemini_resolved_playable parse nr up resp f i st n v :
  GeminiService.run parse nr up resp f i st = (n, Resolved v) ->
  v <> [] /\ Forall playable v.
Proof.
  apply (poll_loop_resolved _ _ _ _ (fun v => v <> [] /\ Forall playable v)).
  exact (gemini_return_playable parse nr up).
Qed.

(** Claim C10.  Every list resolved by [sunoService.pollForMusic] or
    [geminiService.pollForMusic], on any sequence of responses, is
    non-empty and each of its tracks has status ['SUCCESS'] and a truthy
    [audio_url]. *)
Theorem resolved_tracks_playable :
  (forall resp n v,
     SunoService.pollForMusic resp = (n, Resolved v) -> v <> [] /\ Forall playable v) /\
  (forall parse nr up resp n v,
     GeminiService.pollForMusic parse nr up resp = (n, Resolved v) ->
     v <> [] /\ Forall playable v).
Proof.
  split.
  - intros resp n v; apply suno_resolved_playable.
  - intros parse nr up resp n v; apply gemini_resolved_playable.
Qed.

(** ** SUCCESS without audio *)

Lemma suno_body_success_no_url i r st :
  suno_success_no_url r = true ->
  exists d, SunoService.body i r st
    = if Nat.ltb i (SunoService.MAX_ATTEMPTS - 5)
      then (Continue, {| SunoService.consecutiveErrors := 0;
                         SunoService.lastKnownData := d |})
      else (Throw (Error "Generation marked as complete but audio URL was never provided"),
            {| SunoService.consecutiveErrors := 0; SunoService.lastKnownData := d |}).
Proof.
  unfold suno_success_no_url; intros H.
  destruct (ok_data r) as [d|] eqn:Hd; [|discriminate].
  exists d.
  apply andb_prop in H as [H1 H2]; apply negb_true_iff in H2.
  unfold ok_data in Hd.
  destruct r as [m|code text|code m|m|res]; try discriminate.
  destruct (get res "code") as [c|] eqn:Hc; [|discriminate].
  destruct (is_num c 200) eqn:E; [|discriminate].
  destruct (truthy (oget res "data")) eqn:T; [|discriminate].
  injection Hd as <-.
  unfold SunoService.body; rewrite Hc, E; cbv zeta; cbn [negb]; rewrite T.
  cbn [negb]; rewrite H1, H2; reflexivity.
Qed.

Lemma suno_grace resp : forall k i st,
  i + k = SunoService.MAX_ATTEMPTS - 5 ->
  (forall j, i <= j <= i + k -> suno_success_no_url (resp j) = true) ->
  SunoService.run resp (SunoService.MAX_ATTEMPTS - i) i st
  = (SunoService.MAX_ATTEMPTS - 4,
     Rejected (Error "Generation marked as complete but audio URL was never provided")).
Proof.
  induction k as [|k IH]; intros i st Hk H.
  - destruct (suno_body_success_no_url i (resp i) st (H i ltac:(lia))) as [d Hb].
    rewrite Nat.add_0_r in Hk; subst i.
    replace (Nat.ltb (SunoService.MAX_ATTEMPTS - 5) (SunoService.MAX_ATTEMPTS - 5))
      with false in Hb by reflexivity.
    unfold SunoService.run; rewrite (fuel_split SunoService.MAX_ATTEMPTS (SunoService.MAX_ATTEMPTS - 5)
      ltac:(unfold SunoService.MAX_ATTEMPTS; lia)).
    erewrite poll_loop_throw by (exact Hb || reflexivity); reflexivity.
  - destruct (suno_body_success_no_url i (resp i) st (H i ltac:(lia))) as [d Hb].
    replace (Nat.ltb i (SunoService.MAX_ATTEMPTS - 5)) with true in Hb
      by (symmetry; apply Nat.ltb_lt; lia).
    unfold SunoService.run; rewrite (fuel_split SunoService.MAX_ATTEMPTS i
      ltac:(unfold SunoService.MAX_ATTEMPTS in *; lia)).
    erewrite poll_loop_continue by exact Hb.
    apply IH; [lia|intros j Hj; apply H; lia].
Qed.

(** Claim C1 (as amended).  A SUCCESS response from which no playable
    track can be extracted never yields a resolved poll: every value
    resolved by either poller is a non-empty list of playable tracks.  In
    [sunoService] such a response makes the poll keep going while
    [i < 115] (more than 5 of the 120 attempts remain) and reject with
    "Generation marked as complete but audio URL was never provided" from
    attempt 115 on, so a job stuck in that state is rejected at the 116th
    request.  In [geminiService] a response whose status the runtime's
    [toUpperCase] turns into SUCCESS, and whose extracted track list has
    no null entry and no track with a usable audio URL, is rejected on the
    same attempt with a "Generation marked as complete, ..." error.  When
    the list has a null entry, the attempt ends in a TypeError that the
    loop catches and polling goes on with the status recorded. *)
Theorem success_without_audio_rejects :
  (forall resp n v,
     SunoService.pollForMusic resp = (n, Resolved v) -> v <> [] /\ Forall playable v) /\
  (forall resp i st,
     SunoService.MAX_ATTEMPTS - 5 <= i < SunoService.MAX_ATTEMPTS ->
     suno_success_no_url (resp i) = true ->
     SunoService.run resp (SunoService.MAX_ATTEMPTS - i) i st
     = (S i, Rejected (Error "Generation marked as complete but audio URL was never provided"))) /\
  (forall resp i st,
     i < SunoService.MAX_ATTEMPTS - 5 ->
     suno_success_no_url (resp i) = true ->
     exists st',
       SunoService.run resp (SunoService.MAX_ATTEMPTS - i) i st
       = SunoService.run resp (SunoService.MAX_ATTEMPTS - S i) (S i) st') /\
  (forall resp i st,
     i <= SunoService.MAX_ATTEMPTS - 5 ->
     (forall j, i <= j <= SunoService.MAX_ATTEMPTS - 5 ->
                suno_success_no_url (resp j) = true) ->
     SunoService.run resp (SunoService.MAX_ATTEMPTS - i) i st
     = (SunoService.MAX_ATTEMPTS - 4,
        Rejected (Error "Generation marked as complete but audio URL was never provided"))) /\
  (forall parse nr up resp n v,
     GeminiService.pollForMusic parse nr up resp = (n, Resolved v) ->
     v <> [] /\ Forall playable v) /\
  (forall parse nr up resp i st d,
     i < GeminiService.MAX_ATTEMPTS ->
     ok_data (resp i) = Some d -> gemini_status up d = Some "SUCCESS" ->
     gemini_no_usable_track parse d = true ->
     exists m, includes m "Generation marked as complete" = true /\
       GeminiService.run parse nr up resp (GeminiService.MAX_ATTEMPTS - i) i st
       = (S i, Rejected (Error m))) /\
  (forall parse nr up resp i st d,
     i < GeminiService.MAX_ATTEMPTS ->
     ok_data (resp i) = Some d -> gemini_status up d = Some "SUCCESS" ->
     gemini_null_entry parse d = true ->
     GeminiService.run parse nr up resp (GeminiService.MAX_ATTEMPTS - i) i st
     = GeminiService.run parse nr up resp (GeminiService.MAX_ATTEMPTS - S i) (S i)
         {| GeminiService.consecutiveErrors := 0;
            GeminiService.lastKnownStatus := "SUCCESS" |}).
Proof.
  split; [|split; [|split; [|split; [|split; [|split]]]]].
  - intros resp n v; apply suno_resolved_playable.
  - intros resp i st Hi H.
    destruct (suno_body_success_no_url i (resp i) st H) as [d Hb].
    replace (Nat.ltb i (SunoService.MAX_ATTEMPTS - 5)) with false in Hb
      by (symmetry; apply Nat.ltb_ge; lia).
    unfold SunoService.run; rewrite (fuel_split _ _ (proj2 Hi)).
    erewrite poll_loop_throw by (exact Hb || reflexivity); reflexivity.
  - intros resp i st Hi H.
    destruct (suno_body_success_no_url i (resp i) st H) as [d Hb].
    replace (Nat.ltb i (SunoService.MAX_ATTEMPTS - 5)) with true in Hb
      by (symmetry; apply Nat.ltb_lt; lia).
    eexists; unfold SunoService.run.
    rewrite (fuel_split SunoService.MAX_ATTEMPTS i
      ltac:(unfold SunoService.MAX_ATTEMPTS in *; lia)).
    erewrite poll_loop_continue by exact Hb; reflexivity.
  - intros resp i st Hi H.
    apply (suno_grace resp (SunoService.MAX_ATTEMPTS - 5 - i)); [lia|].
    intros j Hj; apply H; lia.
  - intros parse nr up resp n v; apply gemini_resolved_playable.
  - intros parse nr up resp i st d Hi Hd Hs Hq.
    pose proof (gemini_body_quiet parse nr up i (resp i) st d "SUCCESS" Hd Hs Hq) as Hb.
    cbn [String.eqb Ascii.eqb Bool.eqb] in Hb.
    eexists; split; [|unfold GeminiService.run; rewrite (fuel_split _ _ Hi);
                      erewrite poll_loop_throw; [reflexivity|exact Hb|]].
    + destruct (Nat.ltb 0 _); reflexivity.
    + simpl; destruct (Nat.ltb 0 _); reflexivity.
  - intros parse nr up resp i st d Hi Hd Hs Hq.
    exact (gemini_run_null parse nr up resp i st d "SUCCESS" Hi Hd Hs Hq).
Qed.

(** ** Failure statuses *)






(** ** Returned tracks *)

(** [tracks.filter(t => getAudioUrl(t))] on tracks that are not null. *)
Lemma filter_valid_filter ts vs :
  GeminiService.filter_valid ts = Some vs ->
  vs = filter (fun t => match GeminiService.getAudioUrl t with
                        | Some u => truthy u | None => false end) ts.
Proof.
  revert vs; induction ts as [|t ts IH]; intros vs H; simpl in H.
  - injection H as <-; reflexivity.
  - destruct (GeminiService.getAudioUrl t) as [u|] eqn:Hu; [|discriminate].
    destruct (GeminiService.filter_valid ts) as [ws|]; [|discriminate].
    injection H as <-; simpl; rewrite Hu, <- (IH ws eq_refl).
    reflexivity.
Qed.

Lemma gemini_status_missing (up : string -> string) d :
  up "UNKNOWN" = "UNKNOWN" ->
  truthy (oget d "status") = false -> gemini_status up d = Some "UNKNOWN".
Proof. intros Hu H; unfold gemini_status, js_or; rewrite H, Hu; reflexivity. Qed.

Lemma truthy_array v : truthy v && is_array v = is_array v.
Proof. destruct v; cbn [is_array]; apply andb_false_r || reflexivity. Qed.

Lemma extract_tracks_first_array parse d :
  GeminiService.extract_tracks parse d
  = first_array_location (candidate_locations parse d).
Proof.
  unfold GeminiService.extract_tracks, candidate_locations; cbv zeta.
  generalize (oget (GeminiService.response_obj parse d) "data"); intros a.
  generalize (oget (GeminiService.response_obj parse d) "clips"); intros c.
  generalize (oget d "data"); intros e.
  generalize (GeminiService.response_obj parse d); intros ro.
  rewrite !truthy_array.
  destruct a; try reflexivity; destruct ro; try reflexivity;
    destruct e; try reflexivity; destruct c; reflexivity.
Qed.

Lemma first_array_location_cases cands :
  (Forall (fun c => is_array c = false) cands /\ first_array_location cands = []) \/
  exists k xs,
    nth_error cands k = Some (JArr xs) /\
    (forall j c, j < k -> nth_error cands j = Some c -> is_array c = false) /\
    first_array_location cands = xs.
Proof.
  induction cands as [|c cands IH].
  - left; split; constructor.
  - destruct c as [| | | | |xs|];
      try (right; exists 0, xs; split; [reflexivity|split; [intros; lia|reflexivity]]);
      (destruct IH as [[Hf He]|[k [xs [Hk [Hb He]]]]];
       [left; split; [constructor; [reflexivity|exact Hf]|exact He]
       |right; exists (S k), xs; split; [exact Hk|split; [|exact He]];
        intros [|j] c' Hj Hc; [injection Hc as <-; reflexivity|];
        apply (Hb j c'); [lia|exact Hc]]).
Qed.

(** Claim C5.  The track list of a [geminiService] status payload is the
    items of the first array among [data.response.data], [data.response],
    [data.data] and [data.response.clips], or no track; it is taken from
    one location, never merged; a string [data.response] is replaced by
    its [JSON.parse] result before the locations are read. *)
Theorem track_location_order :
  (forall parse d,
     GeminiService.extract_tracks parse d
     = first_array_location (candidate_locations parse d)) /\
  (forall parse d,
     (Forall (fun c => is_array c = false) (candidate_locations parse d) /\
      GeminiService.extract_tracks parse d = []) \/
     exists k xs,
       nth_error (candidate_locations parse d) k = Some (JArr xs) /\
       (forall j c, j < k -> nth_error (candidate_locations parse d) j = Some c ->
                    is_array c = false) /\
       GeminiService.extract_tracks parse d = xs) /\
  (forall parse d s v,
     oget d "response" = JStr s -> parse s = Some v ->
     GeminiService.response_obj parse d = v).
Proof.
  assert (Heq : forall parse d,
     GeminiService.extract_tracks parse d
     = first_array_location (candidate_locations parse d))
    by exact extract_tracks_first_array.
  split; [exact Heq|split].
  - intros parse d; rewrite Heq; apply first_array_location_cases.
  - intros parse d s v Hr Hp.
    unfold GeminiService.response_obj; rewrite Hr, Hp; reflexivity.
Qed.

(** ** Statuses that are not terminal *)

Lemma part000_step resp i :
  i < Part000.MAX_ATTEMPTS -> part000_nonterminal (resp i) = true ->
  Part000.run resp (Part000.MAX_ATTEMPTS - i) i
  = Part000.run resp (Part000.MAX_ATTEMPTS - S i) (S i).
Proof.
  intros Hi H; unfold Part000.run; rewrite (fuel_split _ _ Hi).
  destruct (part000_body_nonterminal i (resp i) H) as [c [Hb [->|[e [-> He]]]]].
  - apply poll_loop_continue; exact Hb.
  - eapply poll_loop_swallow; [exact Hb|exact He].
Qed.

Lemma udio_step workId resp i :
  i < UdioService.MAX_ATTEMPTS -> udio_nonterminal workId (resp i) = true ->
  UdioService.run workId resp (UdioService.MAX_ATTEMPTS - i) i
  = UdioService.run workId resp (UdioService.MAX_ATTEMPTS - S i) (S i).
Proof.
  intros Hi H; unfold UdioService.run; rewrite (fuel_split _ _ Hi).
  destruct (udio_body_nonterminal workId i (resp i) H) as [c [Hb [->|[e [-> He]]]]].
  - apply poll_loop_continue; exact Hb.
  - eapply poll_loop_swallow; [exact Hb|exact He].
Qed.

(** Claim C6 (as amended).  A well-formed [geminiService] response whose
    status, after the runtime's [toUpperCase] (a missing or empty one reads
    as [UNKNOWN]), is neither [SUCCESS] nor [FAILED], and whose extracted
    track list has a null entry or no track with a usable audio URL, does
    not end the poll: it goes on with the next attempt, the error counter
    at 0 and that status recorded.  Without a null entry no error is
    raised on that attempt; a null entry raises a TypeError that the loop
    catches.  When the list has no null entry and some track has a usable
    audio URL, the mapped tracks are returned on that attempt.  In the
    unnamed poller a [code === 200] response whose status is missing, or
    is a string outside its failure labels, other than [SUCCESS] and
    containing neither [FAILED] nor [ERROR], and in [udioService] a feed
    whose entry for the job is neither a playable [SUCCESS] nor [FAILED],
    likewise lead to the next attempt. *)
Theorem unknown_status_keeps_polling :
  (forall parse nr up resp i st,
     i < GeminiService.MAX_ATTEMPTS ->
     gemini_nonterminal parse up (resp i) = true ->
     exists d s, ok_data (resp i) = Some d /\ gemini_status up d = Some s /\
       GeminiService.run parse nr up resp (GeminiService.MAX_ATTEMPTS - i) i st
       = GeminiService.run parse nr up resp (GeminiService.MAX_ATTEMPTS - S i) (S i)
           {| GeminiService.consecutiveErrors := 0;
              GeminiService.lastKnownStatus := s |}) /\
  (forall parse nr up i r st d s,
     ok_data r = Some d -> gemini_status up d = Some s ->
     gemini_no_usable_track parse d = true ->
     String.eqb s "SUCCESS" = false -> String.eqb s "FAILED" = false ->
     GeminiService.body parse nr up i r st
     = (Continue, {| GeminiService.consecutiveErrors := 0;
                     GeminiService.lastKnownStatus := s |})) /\
  (forall parse nr up i r st d s,
     ok_data r = Some d -> gemini_status up d = Some s ->
     gemini_null_entry parse d = true ->
     GeminiService.body parse nr up i r st
     = (Throw TypeError, {| GeminiService.consecutiveErrors := 0;
                            GeminiService.lastKnownStatus := s |}) /\
     GeminiService.rethrow TypeError = false) /\
  (forall (up : string -> string) d, up "UNKNOWN" = "UNKNOWN" ->
     truthy (oget d "status") = false -> gemini_status up d = Some "UNKNOWN") /\
  (forall parse nr up resp i st d s vs,
     i < GeminiService.MAX_ATTEMPTS ->
     ok_data (resp i) = Some d -> gemini_status up d = Some s ->
     GeminiService.filter_valid (GeminiService.extract_tracks parse d) = Some vs ->
     0 < length vs ->
     GeminiService.run parse nr up resp (GeminiService.MAX_ATTEMPTS - i) i st
     = (S i, Resolved (GeminiService.to_tasks nr i 0 vs))) /\
  (forall resp i,
     i < Part000.MAX_ATTEMPTS -> part000_nonterminal (resp i) = true ->
     Part000.run resp (Part000.MAX_ATTEMPTS - i) i
     = Part000.run resp (Part000.MAX_ATTEMPTS - S i) (S i)) /\
  (forall workId resp i,
     i < UdioService.MAX_ATTEMPTS -> udio_nonterminal workId (resp i) = true ->
     UdioService.run workId resp (UdioService.MAX_ATTEMPTS - i) i
     = UdioService.run workId resp (UdioService.MAX_ATTEMPTS - S i) (S i)).
Proof.
  split; [|split; [|split; [|split; [|split; [|split]]]]].
  - intros parse nr up resp i st Hi H.
    destruct (gemini_body_nonterminal parse nr up i (resp i) st H)
      as [d [s [c [Hd [Hs [Hb Hc]]]]]].
    exists d, s; split; [exact Hd|split; [exact Hs|]].
    unfold GeminiService.run; rewrite (fuel_split _ _ Hi).
    eapply poll_loop_pass; [exact Hb|exact Hc].
  - intros parse nr up i r st d s Hd Hs Hq H1 H2.
    rewrite (gemini_body_quiet parse nr up i r st d s Hd Hs Hq), H1, H2; reflexivity.
  - intros parse nr up i r st d s Hd Hs Hq.
    split; [exact (gemini_body_null parse nr up i r st d s Hd Hs Hq)|reflexivity].
  - exact gemini_status_missing.
  - intros parse nr up resp i st d s vs Hi Hd Hs Hf Hn.
    exact (gemini_run_tracks parse nr up resp i st d s vs Hi Hd Hs Hf
             (length_pos_nonempty vs Hn)).
  - exact part000_step.
  - exact udio_step.
Qed.

(** Claim C6 fails for [geminiService]: a response with the unrecognised
    status [RUNNING] that carries a track with an audio URL ends the poll
    with that track on the first attempt. *)
Lemma unknown_status_with_track_resolves :
  GeminiService.pollForMusic no_parse fixed_stamp ascii_toUpperCase
    (fun _ => gemini_tracks "RUNNING" [sample_track])
  = (1, Resolved (GeminiService.to_tasks fixed_stamp 0 0 [sample_track])).
Proof. vm_compute; reflexivity. Qed.

(** ** Mapping of the returned tracks *)

Lemma getAudioUrl_object t :
  nullish t = false ->
  GeminiService.getAudioUrl t
  = Some (js_or (oget t "audio_url") (js_or (oget t "audioUrl")
           (js_or (oget t "audio_src") (js_or (oget t "url") (oget t "audio"))))).
Proof. destruct t; try discriminate; reflexivity. Qed.

Lemma to_tasks_nth nr i : forall vs k n item,
  nth_error vs n = Some item ->
  nth_error (GeminiService.to_tasks nr i k vs) n
  = Some (GeminiService.to_task nr i (k + n) item).
Proof.
  induction vs as [|v vs IH]; intros k n item H; [destruct n; discriminate|].
  destruct n as [|n]; simpl in H |- *.
  - injection H as <-; rewrite Nat.add_0_r; reflexivity.
  - rewrite (IH (S k) n item H); do 2 f_equal; lia.
Qed.

(** Claim C7 (as amended).  [geminiService] keeps, in their upstream
    order, exactly the tracks whose first truthy value among [audio_url],
    [audioUrl], [audio_src], [url] and [audio] exists (the list having no
    null entry); the [k]-th kept track becomes [to_task] of it at
    position [k]; a track without a truthy [id] gets the identifier
    "gen-" followed by the runtime's [Date.now()] and [Math.random()]
    text, which differs from run to run; and when at least one track is
    kept the poll returns the mapped list on that same attempt. *)
Theorem returned_tracks_extraction :
  (forall ts vs,
     GeminiService.filter_valid ts = Some vs ->
     vs = filter (fun t => match GeminiService.getAudioUrl t with
                           | Some u => truthy u | None => false end) ts) /\
  (forall t, nullish t = false ->
     GeminiService.getAudioUrl t
     = Some (js_or (oget t "audio_url") (js_or (oget t "audioUrl")
              (js_or (oget t "audio_src") (js_or (oget t "url") (oget t "audio")))))) /\
  (forall nr i vs n item,
     nth_error vs n = Some item ->
     nth_error (GeminiService.to_tasks nr i 0 vs) n
     = Some (GeminiService.to_task nr i n item)) /\
  (forall nr i k item,
     id (GeminiService.to_task nr i k item)
     = js_or (oget item "id") (JStr ("gen-" ++ nr i k))) /\
  (forall parse nr up resp i st d s vs,
     i < GeminiService.MAX_ATTEMPTS ->
     ok_data (resp i) = Some d -> gemini_status up d = Some s ->
     GeminiService.filter_valid (GeminiService.extract_tracks parse d) = Some vs ->
     0 < length vs ->
     GeminiService.run parse nr up resp (GeminiService.MAX_ATTEMPTS - i) i st
     = (S i, Resolved (GeminiService.to_tasks nr i 0 vs))).
Proof.
  split; [|split; [|split; [|split]]].
  - exact filter_valid_filter.
  - exact getAudioUrl_object.
  - intros nr i vs n item H; exact (to_tasks_nth nr i vs 0 n item H).
  - reflexivity.
  - intros parse nr up resp i st d s vs Hi Hd Hs Hf Hn.
    exact (gemini_run_tracks parse nr up resp i st d s vs Hi Hd Hs Hf
             (length_pos_nonempty vs Hn)).
Qed.

(** Claim C7 fails on the identifier: the same response yields a track
    whose synthesised [id] depends on the clock and random source of the
    run. *)
Lemma synthesized_id_not_stable :
  GeminiService.pollForMusic no_parse fixed_stamp ascii_toUpperCase
    (fun _ => gemini_tracks "SUCCESS" [sample_track])
  = (1, Resolved [GeminiService.to_task fixed_stamp 0 0 sample_track]) /\
  GeminiService.pollForMusic no_parse other_stamp ascii_toUpperCase
    (fun _ => gemini_tracks "SUCCESS" [sample_track])
  = (1, Resolved [GeminiService.to_task other_stamp 0 0 sample_track]) /\
  id (GeminiService.to_task fixed_stamp 0 0 sample_track)
  <> id (GeminiService.to_task other_stamp 0 0 sample_track).
Proof.
  split; [vm_compute; reflexivity|split; [vm_compute; reflexivity|]].
  vm_compute; discriminate.
Qed.

(** Claim C9 (as amended).  In [geminiService] a well-formed response
    whose extracted track list has no null entry and some track with a
    usable audio URL ends the poll with the mapped tracks on that attempt,
    whatever its status string [s] is; a job that only ever reports
    [PENDING] with such a list is returned on the first attempt.  A list
    with a null entry, even next to a track with a usable audio URL, ends
    the attempt in a TypeError that the loop catches: nothing is returned
    and polling goes on with the status recorded. *)
Theorem tracks_returned_before_status :
  (forall parse nr up resp i st d s vs,
     i < GeminiService.MAX_ATTEMPTS ->
     ok_data (resp i) = Some d -> gemini_status up d = Some s ->
     GeminiService.filter_valid (GeminiService.extract_tracks parse d) = Some vs ->
     0 < length vs ->
     GeminiService.run parse nr up resp (GeminiService.MAX_ATTEMPTS - i) i st
     = (S i, Resolved (GeminiService.to_tasks nr i 0 vs))) /\
  (forall parse nr up resp i st d s,
     i < GeminiService.MAX_ATTEMPTS ->
     ok_data (resp i) = Some d -> gemini_status up d = Some s ->
     gemini_null_entry parse d = true ->
     GeminiService.run parse nr up resp (GeminiService.MAX_ATTEMPTS - i) i st
     = GeminiService.run parse nr up resp (GeminiService.MAX_ATTEMPTS - S i) (S i)
         {| GeminiService.consecutiveErrors := 0;
            GeminiService.lastKnownStatus := s |}) /\
  (ok_data (gemini_tracks "PENDING" [sample_track])
   = Some (gemini_tracks_data "PENDING" [sample_track]) /\
   gemini_status ascii_toUpperCase (gemini_tracks_data "PENDING" [sample_track]) = Some "PENDING") /\
  GeminiService.pollForMusic no_parse fixed_stamp ascii_toUpperCase
    (fun _ => gemini_tracks "PENDING" [sample_track])
  = (1, Resolved (GeminiService.to_tasks fixed_stamp 0 0 [sample_track])).
Proof.
  split; [|split; [|split]].
  - intros parse nr up resp i st d s vs Hi Hd Hs Hf Hn.
    exact (gemini_run_tracks parse nr up resp i st d s vs Hi Hd Hs Hf
             (length_pos_nonempty vs Hn)).
  - exact gemini_run_null.
  - split; reflexivity.
  - vm_compute; reflexivity.
Qed.

(** ** Submission *)

(** Claim C8 fails for [sunoService.generateMusic]: a 2xx reply
    [{code: 200, msg: "success", data: {}}] carries no [taskId], yet the
    call resolves with [undefined] instead of failing, whereas
    [udioService.generateTrack] rejects a reply without [workId] or
    [data.task_id]. *)
Lemma generateMusic_without_taskId :
  SunoService.generateMusic "lofi beat" "k" true (ok_payload (JObj []))
  = Resolved JUndef /\
  UdioService.generateTrack "lofi beat" "k" (HttpOk (JObj [("data", JObj [])]))
  = Rejected (Error "Failed to retrieve Task ID from Udio response.").
Proof. split; reflexivity. Qed.



(** Claim C1 fails for [geminiService] on a track list with a null entry:
    a job that keeps answering SUCCESS with [response.data = [null]] is
    never rejected with a complete-but-no-audio error; every attempt ends
    in a caught TypeError and the poll times out after 60 requests. *)
Lemma success_null_entry_times_out :
  GeminiService.pollForMusic no_parse fixed_stamp ascii_toUpperCase
    (fun _ => gemini_tracks "SUCCESS" [JNull])
  = (60, Rejected (Error ("Timeout waiting for music generation. Last known status: SUCCESS."
       ++ " If the status was SUCCESS, it may indicate a data parsing issue."))).
Proof. vm_compute; reflexivity. Qed.

(** Claim C9 fails for [geminiService] on a track list with a null entry:
    a PENDING job whose list is [[null, track]] never has its playable
    track returned; the poll times out after 60 requests. *)
Lemma null_entry_track_not_returned :
  GeminiService.pollForMusic no_parse fixed_stamp ascii_toUpperCase
    (fun _ => gemini_tracks "PENDING" [JNull; sample_track])
  = (60, Rejected (Error ("Timeout waiting for music generation. Last known status: PENDING."
       ++ " If the status was SUCCESS, it may indicate a data parsing issue."))).
Proof. vm_compute; reflexivity. Qed.

(** ** Instances of the theorems on sample inputs *)

Lemma success_without_audio_rejects_witness :
  (0 <= SunoService.MAX_ATTEMPTS - 5 /\
   forall j, 0 <= j <= SunoService.MAX_ATTEMPTS - 5 ->
             suno_success_no_url suno_success_no_url_resp = true) /\
  SunoService.run (fun _ => suno_success_no_url_resp)
    (SunoService.MAX_ATTEMPTS - 0) 0 SunoService.init
  = (SunoService.MAX_ATTEMPTS - 4,
     Rejected (Error "Generation marked as complete but audio URL was never provided")).
Proof.
  split; [split; [vm_compute; lia|intros j _; vm_compute; reflexivity]|].
  apply (proj1 (proj2 (proj2 (proj2 success_without_audio_rejects)))
           (fun _ => suno_success_no_url_resp) 0 SunoService.init).
  - vm_compute; lia.
  - intros j _; vm_compute; reflexivity.
Defined.




Lemma track_location_order_witness :
  (oget string_response_data "response" = JStr "[]" /\
   stub_parse "[]" = Some (JObj [("data", JArr [sample_track])])) /\
  GeminiService.response_obj stub_parse string_response_data
  = JObj [("data", JArr [sample_track])].
Proof.
  split; [split; reflexivity|].
  apply (proj2 (proj2 track_location_order) stub_parse string_response_data "[]").
  - reflexivity.
  - reflexivity.
Defined.

Lemma unknown_status_keeps_polling_witness :
  (0 < GeminiService.MAX_ATTEMPTS /\
   gemini_nonterminal no_parse ascii_toUpperCase (gemini_empty "RUNNING") = true) /\
  exists d s, ok_data (gemini_empty "RUNNING") = Some d /\ gemini_status ascii_toUpperCase d = Some s /\
    GeminiService.run no_parse fixed_stamp ascii_toUpperCase (fun _ => gemini_empty "RUNNING")
      (GeminiService.MAX_ATTEMPTS - 0) 0 GeminiService.init
    = GeminiService.run no_parse fixed_stamp ascii_toUpperCase (fun _ => gemini_empty "RUNNING")
        (GeminiService.MAX_ATTEMPTS - 1) 1
        {| GeminiService.consecutiveErrors := 0; GeminiService.lastKnownStatus := s |}.
Proof.
  split; [split; [vm_compute; lia|vm_compute; reflexivity]|].
  apply (proj1 unknown_status_keeps_polling no_parse fixed_stamp ascii_toUpperCase
           (fun _ => gemini_empty "RUNNING") 0 GeminiService.init).
  - vm_compute; lia.
  - vm_compute; reflexivity.
Defined.

Lemma returned_tracks_extraction_witness :
  (0 < GeminiService.MAX_ATTEMPTS /\
   ok_data (gemini_tracks "SUCCESS" [sample_track])
   = Some (gemini_tracks_data "SUCCESS" [sample_track]) /\
   gemini_status ascii_toUpperCase (gemini_tracks_data "SUCCESS" [sample_track]) = Some "SUCCESS" /\
   GeminiService.filter_valid
     (GeminiService.extract_tracks no_parse (gemini_tracks_data "SUCCESS" [sample_track]))
   = Some [sample_track] /\
   0 < length [sample_track]) /\
  GeminiService.run no_parse fixed_stamp ascii_toUpperCase (fun _ => gemini_tracks "SUCCESS" [sample_track])
    (GeminiService.MAX_ATTEMPTS - 0) 0 GeminiService.init
  = (1, Resolved (GeminiService.to_tasks fixed_stamp 0 0 [sample_track])).
Proof.
  split; [repeat split; vm_compute; (reflexivity || lia)|].
  apply (proj2 (proj2 (proj2 (proj2 returned_tracks_extraction)))
           no_parse fixed_stamp ascii_toUpperCase (fun _ => gemini_tracks "SUCCESS" [sample_track]) 0
           GeminiService.init (gemini_tracks_data "SUCCESS" [sample_track]) "SUCCESS"
           [sample_track]).
  - vm_compute; lia.
  - reflexivity.
  - reflexivity.
  - vm_compute; reflexivity.
  - simpl; lia.
Defined.

Lemma tracks_returned_before_status_witness :
  (0 < GeminiService.MAX_ATTEMPTS /\
   GeminiService.filter_valid
     (GeminiService.extract_tracks no_parse (gemini_tracks_data "PENDING" [sample_track]))
   = Some [sample_track]) /\
  GeminiService.run no_parse fixed_stamp ascii_toUpperCase (fun _ => gemini_tracks "PENDING" [sample_track])
    (GeminiService.MAX_ATTEMPTS - 0) 0 GeminiService.init
  = (1, Resolved (GeminiService.to_tasks fixed_stamp 0 0 [sample_track])).
Proof.
  split; [split; [vm_compute; lia|vm_compute; reflexivity]|].
  apply (proj1 tracks_returned_before_status
           no_parse fixed_stamp ascii_toUpperCase (fun _ => gemini_tracks "PENDING" [sample_track]) 0
           GeminiService.init (gemini_tracks_data "PENDING" [sample_track]) "PENDING"
           [sample_track]).
  - vm_compute; lia.
  - reflexivity.
  - reflexivity.
  - vm_compute; reflexivity.
  - simpl; lia.
Defined.

Lemma resolved_tracks_playable_witness :
  GeminiService.pollForMusic no_parse fixed_stamp ascii_toUpperCase
    (fun _ => gemini_tracks "PENDING" [sample_track])
  = (1, Resolved (GeminiService.to_tasks fixed_stamp 0 0 [sample_track])) /\
  (GeminiService.to_tasks fixed_stamp 0 0 [sample_track] <> [] /\
   Forall playable (GeminiService.to_tasks fixed_stamp 0 0 [sample_track])).
Proof.
  split; [vm_compute; reflexivity|].
  apply (proj2 resolved_tracks_playable no_parse fixed_stamp ascii_toUpperCase
           (fun _ => gemini_tracks "PENDING" [sample_track]) 1).
  vm_compute; reflexivity.
Defined.

(** ** How a poll ends *)

Section PollLoopOutcomes.
Context {State A : Type}.
Variable body : nat -> http_outcome -> State -> step A * State.
Variable rethrow : exn -> bool.
Variable timeout : State -> exn.
Variable resp : nat -> http_outcome.

(** A rejection is either an error the [catch] rethrows or the timeout
    after the whole budget. *)
Lemma poll_loop_rejected : forall f i st n e,
  poll_loop body rethrow timeout resp f i st = (n, Rejected e) ->
  (rethrow e = true /\ i < n <= i + f) \/ (n = i + f /\ exists st', e = timeout st').
Proof.
  induction f as [|f IH]; intros i st n e H; simpl in H.
  - injection H as <- <-; right; split; [lia|eexists; reflexivity].
  - destruct (body i (resp i) st) as [r st'] eqn:Hb.
    destruct r as [|w|e'].
    + destruct (IH _ _ _ _ H) as [[? ?]|[? ?]];
        [left; split; [assumption|lia]|right; split; [lia|assumption]].
    + discriminate.
    + destruct (rethrow e') eqn:He.
      * injection H as <- <-; left; split; [exact He|lia].
      * destruct (IH _ _ _ _ H) as [[? ?]|[? ?]];
          [left; split; [assumption|lia]|right; split; [lia|assumption]].
Qed.

(** A resolution is the value returned by the body at the last attempt. *)
Lemma poll_loop_returned_at : forall f i st n v,
  poll_loop body rethrow timeout resp f i st = (n, Resolved v) ->
  exists j st0 st1, i <= j < i + f /\ n = S j /\ body j (resp j) st0 = (Return v, st1).
Proof.
  induction f as [|f IH]; intros i st n v H; simpl in H; [discriminate|].
  destruct (body i (resp i) st) as [r st'] eqn:Hb.
  destruct r as [|w|e'].
  - destruct (IH _ _ _ _ H) as [j [s0 [s1 [Hj [Hn Hr]]]]].
    exists j, s0, s1; split; [lia|split; assumption].
  - injection H as <- <-; exists i, st, st'; split; [lia|split; [reflexivity|exact Hb]].
  - destruct (rethrow e'); [discriminate|].
    destruct (IH _ _ _ _ H) as [j [s0 [s1 [Hj [Hn Hr]]]]].
    exists j, s0, s1; split; [lia|split; assumption].
Qed.

End PollLoopOutcomes.

Lemma suno_return_shape i r st v st' :
  SunoService.body i r st = (Return v, st') ->
  exists d, ok_data r = Some d /\ is_str (SunoService.status_of d) "SUCCESS" = true /\
    truthy (oget (oget d "response") "audioWavUrl") = true /\
    v = [{| id := oget d "taskId"; status := "SUCCESS";
            audio_url := oget (oget d "response") "audioWavUrl";
            image_url := JUndef; title := JStr "Generated Track";
            model_name := JUndef; prompt := JUndef |}].
Proof.
  unfold SunoService.body; intros H; cbv zeta in H.
  destruct r as [m|code text|code m|m|res]; try discriminate.
  { destruct (Nat.leb _ _); discriminate. }
  destruct (get res "code") as [c|] eqn:Hc; [|discriminate].
  destruct (is_num c 200) eqn:E; cbn [negb] in H; [|destruct (Nat.leb _ _); discriminate].
  destruct (truthy (oget res "data")) eqn:T; cbn [negb] in H; [|discriminate].
  exists (oget res "data"); split; [unfold ok_data; rewrite Hc, E, T; reflexivity|].
  destruct (is_str (SunoService.status_of (oget res "data")) "SUCCESS") eqn:S;
    [|destruct (SunoService.failed_flag _); discriminate].
  destruct (truthy (oget (oget (oget res "data") "response") "audioWavUrl")) eqn:U;
    [|destruct (Nat.ltb _ _); discriminate].
  injection H as <- _; split; [reflexivity|split; reflexivity].
Qed.

Lemma gemini_return_shape parse nr up i r st v st' :
  GeminiService.body parse nr up i r st = (Return v, st') ->
  exists d s vs, ok_data r = Some d /\ gemini_status up d = Some s /\
    GeminiService.filter_valid (GeminiService.extract_tracks parse d) = Some vs /\
    vs <> [] /\ v = GeminiService.to_tasks nr i 0 vs.
Proof.
  unfold GeminiService.body; intros H; cbv zeta in H.
  destruct r as [m|code text|code m|m|res]; try discriminate.
  { destruct (Nat.leb _ _); discriminate. }
  destruct (get res "code") as [c|] eqn:Hc; [|discriminate].
  destruct (is_num c 200) eqn:E; cbn [negb] in H; [|destruct (Nat.leb _ _); discriminate].
  destruct (truthy (oget res "data")) eqn:T; cbn [negb] in H; [|discriminate].
  destruct (js_or (oget (oget res "data") "status") (JStr "UNKNOWN")) as [| | | |s0| |] eqn:Js;
    try discriminate.
  set (ts := GeminiService.extract_tracks parse (oget res "data")) in H.
  destruct (if Nat.ltb 0 (length ts) then GeminiService.filter_valid ts else Some [])
    as [vs|] eqn:F; [|discriminate].
  cbv beta iota in H.
  destruct (Nat.ltb 0 (length vs)) eqn:L; cbv iota in H;
    [|destruct (String.eqb _ "SUCCESS"); [discriminate|];
      destruct (String.eqb _ "FAILED"); discriminate].
  injection H as <- _.
  exists (oget res "data"), (up s0), vs.
  split; [unfold ok_data; rewrite Hc, E, T; reflexivity|].
  split; [unfold gemini_status; rewrite Js; reflexivity|].
  split; [|split; [destruct vs; discriminate|reflexivity]].
  destruct (Nat.ltb 0 (length ts)); [exact F|injection F as <-; discriminate].
Qed.

Lemma udio_find_track_id workId : forall ts t,
  UdioService.find_track workId ts = Some t -> truthy t = true ->
  In t ts /\ get t "id" = Some (JStr workId).
Proof.
  induction ts as [|x ts IH]; intros t H Ht; simpl in H.
  - injection H as <-; discriminate.
  - destruct (get x "id") as [tid|] eqn:Hx; [|discriminate].
    destruct (is_str tid workId) eqn:E.
    + injection H as <-; split; [left; reflexivity|].
      rewrite Hx; destruct tid; try discriminate; simpl in E.
      apply String.eqb_eq in E; subst; reflexivity.
    + destruct (IH t H Ht) as [Hi Hid]; split; [right; exact Hi|exact Hid].
Qed.

Lemma udio_return_shape workId i r v :
  UdioService.body workId i r tt = (Return v, tt) ->
  exists res ts t, r = HttpOk res /\ get res "data" = Some (JArr ts) /\ In t ts /\
    get t "id" = Some (JStr workId) /\ is_str (oget t "status") "SUCCESS" = true /\
    truthy v = true /\ v = oget t "audio_url".
Proof.
  unfold UdioService.body; intros H.
  destruct r as [m|code text|code m|m|res]; try discriminate.
  destruct (get res "data") as [d|] eqn:Hd; [|discriminate].
  destruct (UdioService.find_in workId d) as [t|] eqn:Hf; [|discriminate].
  destruct (truthy t) eqn:Ht; [|discriminate].
  destruct (is_str (oget t "status") "SUCCESS" && truthy (oget t "audio_url")) eqn:Hs;
    [|destruct (is_str _ "FAILED"); discriminate].
  apply andb_prop in Hs as [Hs Hu].
  injection H as <-.
  destruct d as [| | | | |ts|]; simpl in Hf;
    try (injection Hf as <-; discriminate); try discriminate.
  destruct (udio_find_track_id workId ts t Hf Ht) as [Hi Hid].
  exists res, ts, t; repeat split; assumption.
Qed.

Lemma part000_map_tasks : forall xs v,
  Part000.map_tasks xs = Some v -> Forall2 (fun x t => Part000.to_task x = Some t) xs v.
Proof.
  induction xs as [|x xs IH]; intros v H; simpl in H.
  - injection H as <-; constructor.
  - destruct (Part000.to_task x) as [t|] eqn:Ht; [|discriminate].
    destruct (Part000.map_tasks xs) as [ts|]; [|discriminate].
    injection H as <-; constructor; [exact Ht|apply IH; reflexivity].
Qed.

Lemma part000_return_shape i r v :
  Part000.body i r tt = (Return v, tt) ->
  exists res xs, r = HttpOk res /\ get res "code" = Some (JNum 200) /\
    get (oget res "data") "status" = Some (JStr "SUCCESS") /\
    oget (oget (oget res "data") "response") "sunoData" = JArr xs /\ xs <> [] /\
    Forall2 (fun x t => Part000.to_task x = Some t) xs v.
Proof.
  unfold Part000.body; intros H.
  destruct r as [m|code text|code m|m|res]; try discriminate.
  destruct (get res "code") as [c|] eqn:Hc; [|discriminate].
  destruct (is_num c 200) eqn:E; cbn [negb] in H; [|discriminate].
  cbv zeta in H.
  destruct (get (oget res "data") "status") as [s|] eqn:Hs; [|discriminate].
  destruct (Part000.failure_case s); [discriminate|].
  destruct (is_str s "SUCCESS") eqn:S.
  - destruct (truthy (oget (oget (oget res "data") "response") "sunoData")
              && Part000.has_length (oget (oget (oget res "data") "response") "sunoData"))
      eqn:L; [|discriminate].
    destruct (oget (oget (oget res "data") "response") "sunoData") as [| | | | |xs|] eqn:Sd;
      try discriminate.
    destruct (Part000.map_tasks xs) as [ts|] eqn:M; [|discriminate].
    injection H as <-.
    exists res, xs; split; [reflexivity|].
    split; [destruct c; try discriminate; simpl in E; apply Z.eqb_eq in E; subst; exact Hc|].
    split; [destruct s; try discriminate; simpl in S; apply String.eqb_eq in S; subst;
            exact Hs|].
    split; [exact Sd|split; [|apply part000_map_tasks; exact M]].
    destruct xs; [discriminate L|discriminate].
  - destruct (Part000.js_includes s "FAILED") as [[|]|]; try discriminate.
    destruct (Part000.js_includes s "ERROR") as [[|]|]; discriminate.
Qed.

(** The facts above for each poller, at any fuel. *)
Lemma suno_run_returned_at {resp f i st n v} :
  SunoService.run resp f i st = (n, Resolved v) ->
  exists j st0 st1, i <= j < i + f /\ n = S j /\
    SunoService.body j (resp j) st0 = (Return v, st1).
Proof. apply poll_loop_returned_at. Qed.


Lemma gemini_run_returned_at {parse nr up resp f i st n v} :
  GeminiService.run parse nr up resp f i st = (n, Resolved v) ->
  exists j st0 st1, i <= j < i + f /\ n = S j /\
    GeminiService.body parse nr up j (resp j) st0 = (Return v, st1).
Proof. apply poll_loop_returned_at. Qed.

Lemma gemini_run_rejected {parse nr up resp f i st n e} :
  GeminiService.run parse nr up resp f i st = (n, Rejected e) ->
  (GeminiService.rethrow e = true /\ i < n <= i + f) \/
  (n = i + f /\ exists st', e = GeminiService.timeout st').
Proof. apply poll_loop_rejected. Qed.

Lemma part000_run_returned_at {resp f i n v} :
  Part000.run resp f i = (n, Resolved v) ->
  exists j st0 st1, i <= j < i + f /\ n = S j /\
    Part000.body j (resp j) st0 = (Return v, st1).
Proof. apply poll_loop_returned_at. Qed.

Lemma part000_run_rejected {resp f i n e} :
  Part000.run resp f i = (n, Rejected e) ->
  (Part000.rethrow e = true /\ i < n <= i + f) \/
  (n = i + f /\ exists st', e = Part000.timeout st').
Proof. apply poll_loop_rejected. Qed.

Lemma udio_run_returned_at {workId resp f i n v} :
  UdioService.run workId resp f i = (n, Resolved v) ->
  exists j st0 st1, i <= j < i + f /\ n = S j /\
    UdioService.body workId j (resp j) st0 = (Return v, st1).
Proof. apply poll_loop_returned_at. Qed.

Lemma udio_run_rejected {workId resp f i n e} :
  UdioService.run workId resp f i = (n, Rejected e) ->
  (UdioService.rethrow e = true /\ i < n <= i + f) \/
  (n = i + f /\ exists st', e = UdioService.timeout st').
Proof. apply poll_loop_rejected. Qed.

(** The same facts, stated on the entry points. *)
Lemma suno_poll_returned_at resp n v :
  SunoService.pollForMusic resp = (n, Resolved v) ->
  exists j st0 st1, 0 <= j < 0 + SunoService.MAX_ATTEMPTS /\ n = S j /\
    SunoService.body j (resp j) st0 = (Return v, st1).
Proof. apply suno_run_returned_at. Qed.


Lemma gemini_poll_returned_at parse nr up resp n v :
  GeminiService.pollForMusic parse nr up resp = (n, Resolved v) ->
  exists j st0 st1, 0 <= j < 0 + GeminiService.MAX_ATTEMPTS /\ n = S j /\
    GeminiService.body parse nr up j (resp j) st0 = (Return v, st1).
Proof. apply gemini_run_returned_at. Qed.

Lemma gemini_poll_rejected parse nr up resp n e :
  GeminiService.pollForMusic parse nr up resp = (n, Rejected e) ->
  (GeminiService.rethrow e = true /\ 0 < n <= 0 + GeminiService.MAX_ATTEMPTS) \/
  (n = 0 + GeminiService.MAX_ATTEMPTS /\ exists st', e = GeminiService.timeout st').
Proof. apply gemini_run_rejected. Qed.

Lemma part000_poll_returned_at resp n v :
  Part000.pollForMusic resp = (n, Resolved v) ->
  exists j st0 st1, 0 <= j < 0 + Part000.MAX_ATTEMPTS /\ n = S j /\
    Part000.body j (resp j) st0 = (Return v, st1).
Proof. apply part000_run_returned_at. Qed.

Lemma part000_poll_rejected resp n e :
  Part000.pollForMusic resp = (n, Rejected e) ->
  (Part000.rethrow e = true /\ 0 < n <= 0 + Part000.MAX_ATTEMPTS) \/
  (n = 0 + Part000.MAX_ATTEMPTS /\ exists st', e = Part000.timeout st').
Proof. apply part000_run_rejected. Qed.

Lemma udio_poll_returned_at workId resp n v :
  UdioService.pollForTrack workId resp = (n, Resolved v) ->
  exists j st0 st1, 0 <= j < 0 + UdioService.MAX_ATTEMPTS /\ n = S j /\
    UdioService.body workId j (resp j) st0 = (Return v, st1).
Proof. apply udio_run_returned_at. Qed.

Lemma udio_poll_rejected workId resp n e :
  UdioService.pollForTrack workId resp = (n, Rejected e) ->
  (UdioService.rethrow e = true /\ 0 < n <= 0 + UdioService.MAX_ATTEMPTS) \/
  (n = 0 + UdioService.MAX_ATTEMPTS /\ exists st', e = UdioService.timeout st').
Proof. apply udio_run_rejected. Qed.


(** [sunoService.pollForMusic] resolves only on a well-formed SUCCESS
    response with a truthy [audioWavUrl], with the one-element list built
    from it, after at most 120 requests. *)
Theorem suno_resolves_single_wav :
  forall resp n v, SunoService.pollForMusic resp = (n, Resolved v) ->
  1 <= n <= SunoService.MAX_ATTEMPTS /\
  exists d, ok_data (resp (n - 1)) = Some d /\
    is_str (SunoService.status_of d) "SUCCESS" = true /\
    truthy (oget (oget d "response") "audioWavUrl") = true /\
    v = [{| id := oget d "taskId"; status := "SUCCESS";
            audio_url := oget (oget d "response") "audioWavUrl";
            image_url := JUndef; title := JStr "Generated Track";
            model_name := JUndef; prompt := JUndef |}].
Proof.
  intros resp n v H.
  destruct (suno_poll_returned_at _ _ _ H) as [j [s0 [s1 [Hj [Hn Hb]]]]].
  clear H; subst n; split; [lia|].
  replace (S j - 1) with j by lia.
  exact (suno_return_shape _ _ _ _ _ Hb).
Qed.


(** [geminiService.pollForMusic] resolves only at a well-formed response
    from which a non-empty list of tracks with usable audio URLs was
    extracted, with those tracks mapped in order. *)
Theorem gemini_resolution_source :
  forall parse nr up resp n v,
  GeminiService.pollForMusic parse nr up resp = (n, Resolved v) ->
  1 <= n <= GeminiService.MAX_ATTEMPTS /\
  exists d s vs, ok_data (resp (n - 1)) = Some d /\ gemini_status up d = Some s /\
    GeminiService.filter_valid (GeminiService.extract_tracks parse d) = Some vs /\
    vs <> [] /\ v = GeminiService.to_tasks nr (n - 1) 0 vs.
Proof.
  intros parse nr up resp n v H.
  destruct (gemini_poll_returned_at _ _ _ _ _ _ H) as [j [s0 [s1 [Hj [Hn Hb]]]]].
  clear H; subst n; split; [lia|].
  replace (S j - 1) with j by lia.
  exact (gemini_return_shape _ _ _ _ _ _ _ _ Hb).
Qed.

(** [geminiService.pollForMusic] rejects either with the timeout error
    after all 60 requests or, earlier, with an error whose message names a
    repeated API failure, a failed task or a completion without audio. *)
Theorem gemini_rejection_kinds :
  forall parse nr up resp n e,
  GeminiService.pollForMusic parse nr up resp = (n, Rejected e) ->
  (n = GeminiService.MAX_ATTEMPTS /\ exists st, e = GeminiService.timeout st) \/
  (n <= GeminiService.MAX_ATTEMPTS /\ exists m, e = Error m /\
     (includes m "Repeated API" || includes m "Suno API task failed"
      || includes m "Generation marked as complete") = true).
Proof.
  intros parse nr up resp n e H.
  destruct (gemini_poll_rejected _ _ _ _ _ _ H) as [[Hr Hn]|[Hn Ht]].
  - right; split; [exact (proj2 Hn)|].
    destruct e as [m|]; [exists m; split; [reflexivity|exact Hr]|discriminate].
  - left; split; [exact Hn|exact Ht].
Qed.

(** The unnamed [pollForMusic] resolves only at a [code === 200] response
    with status [SUCCESS] and a non-empty [response.sunoData] array, with
    one task per track of that array, in order, none filtered out. *)
Theorem part000_resolves_all_tracks :
  forall resp n v, Part000.pollForMusic resp = (n, Resolved v) ->
  1 <= n <= Part000.MAX_ATTEMPTS /\
  exists res xs, resp (n - 1) = HttpOk res /\ get res "code" = Some (JNum 200) /\
    get (oget res "data") "status" = Some (JStr "SUCCESS") /\
    oget (oget (oget res "data") "response") "sunoData" = JArr xs /\ xs <> [] /\
    Forall2 (fun x t => Part000.to_task x = Some t) xs v.
Proof.
  intros resp n v H.
  destruct (part000_poll_returned_at _ _ _ H) as [j [s0 [s1 [Hj [Hn Hb]]]]].
  clear H; subst n; split; [lia|].
  replace (S j - 1) with j by lia.
  destruct s0, s1; exact (part000_return_shape _ _ _ Hb).
Qed.

(** The unnamed [pollForMusic] rejects either with its fixed timeout error
    after all 60 requests or with an error mentioning "Generation failed";
    in particular it never rejects with "Generation completed but no audio
    data returned", which its own [catch] swallows. *)
Theorem part000_rejection_kinds :
  forall resp n e, Part000.pollForMusic resp = (n, Rejected e) ->
  ((n = Part000.MAX_ATTEMPTS /\ e = Error "Generation timeout, please try again later") \/
   (n <= Part000.MAX_ATTEMPTS /\ exists m, e = Error m /\ includes m "Generation failed" = true))
  /\ e <> Error "Generation completed but no audio data returned".
Proof.
  intros resp n e H.
  assert (Hk : (n = Part000.MAX_ATTEMPTS /\ e = Error "Generation timeout, please try again later") \/
   (n <= Part000.MAX_ATTEMPTS /\ exists m, e = Error m /\ includes m "Generation failed" = true)).
  { destruct (part000_poll_rejected _ _ _ H) as [[Hr Hn]|[Hn [st Ht]]].
    - right; split; [exact (proj2 Hn)|].
      destruct e as [m|]; [exists m; split; [reflexivity|exact Hr]|discriminate].
    - left; split; [exact Hn|exact Ht]. }
  split; [exact Hk|].
  destruct Hk as [[_ ->]|[_ [m [-> Hm]]]]; [discriminate|].
  intros E; injection E as ->; discriminate Hm.
Qed.


(** [udioService.pollForTrack] resolves only with the truthy [audio_url]
    of a feed entry whose [id] is the job's [workId] and whose status is
    [SUCCESS]. *)
Theorem udio_resolves_with_job_url :
  forall workId resp n v, UdioService.pollForTrack workId resp = (n, Resolved v) ->
  1 <= n <= UdioService.MAX_ATTEMPTS /\
  exists res ts t, resp (n - 1) = HttpOk res /\ get res "data" = Some (JArr ts) /\
    In t ts /\ get t "id" = Some (JStr workId) /\
    is_str (oget t "status") "SUCCESS" = true /\ truthy v = true /\ v = oget t "audio_url".
Proof.
  intros workId resp n v H.
  destruct (udio_poll_returned_at _ _ _ _ H) as [j [s0 [s1 [Hj [Hn Hb]]]]].
  clear H; subst n; split; [lia|].
  replace (S j - 1) with j by lia.
  destruct s0, s1; exact (udio_return_shape _ _ _ _ Hb).
Qed.

(** [udioService.pollForTrack] rejects only with "Timeout waiting for audio
    generation." after all 30 requests: a [FAILED] job, network errors and
    malformed replies never end the poll early. *)
Theorem udio_rejects_only_on_timeout :
  forall workId resp n e, UdioService.pollForTrack workId resp = (n, Rejected e) ->
  n = UdioService.MAX_ATTEMPTS /\ e = Error "Timeout waiting for audio generation.".
Proof.
  intros workId resp n e H.
  destruct (udio_poll_rejected _ _ _ _ H) as [[Hr _]|[Hn [st Ht]]];
    [discriminate Hr|split; assumption].
Qed.

(** ** Witnesses of the facts above *)

Definition udio_done_resp : http_outcome :=
  HttpOk (JObj [("data", JArr [JObj [("id", JStr "w1"); ("status", JStr "SUCCESS");
                                     ("audio_url", JStr "https://cdn.example/u.mp3")]])]).

Lemma suno_resolves_single_wav_witness :
  SunoService.pollForMusic (fun _ => suno_success_resp)
  = (1, Resolved (result_value [] (SunoService.pollForMusic (fun _ => suno_success_resp))))
  /\ (1 <= 1 <= SunoService.MAX_ATTEMPTS /\
  exists d, ok_data suno_success_resp = Some d /\
    is_str (SunoService.status_of d) "SUCCESS" = true /\
    truthy (oget (oget d "response") "audioWavUrl") = true /\
    result_value [] (SunoService.pollForMusic (fun _ => suno_success_resp))
    = [{| id := oget d "taskId"; status := "SUCCESS";
            audio_url := oget (oget d "response") "audioWavUrl";
            image_url := JUndef; title := JStr "Generated Track";
            model_name := JUndef; prompt := JUndef |}]).
Proof.
  assert (E : SunoService.pollForMusic (fun _ => suno_success_resp)
    = (1, Resolved (result_value [] (SunoService.pollForMusic (fun _ => suno_success_resp)))))
    by (vm_compute; reflexivity).
  split; [exact E|].
  exact (suno_resolves_single_wav _ _ _ E).
Defined.


Lemma gemini_resolution_source_witness :
  let resp := fun _ : nat => gemini_tracks "SUCCESS" [sample_track] in
  let r := GeminiService.pollForMusic no_parse fixed_stamp ascii_toUpperCase resp in
  r = (1, Resolved (result_value [] r)) /\
  (1 <= 1 <= GeminiService.MAX_ATTEMPTS /\
  exists d s vs, ok_data (resp 0) = Some d /\ gemini_status ascii_toUpperCase d = Some s /\
    GeminiService.filter_valid (GeminiService.extract_tracks no_parse d) = Some vs /\
    vs <> [] /\ result_value [] r = GeminiService.to_tasks fixed_stamp 0 0 vs).
Proof.
  intros resp r.
  assert (E : r = (1, Resolved (result_value [] r))) by (vm_compute; reflexivity).
  split; [exact E|].
  exact (gemini_resolution_source _ _ _ _ _ _ E).
Defined.

Lemma gemini_rejection_kinds_witness :
  GeminiService.pollForMusic no_parse fixed_stamp ascii_toUpperCase (fun _ => server_error)
  = (5, Rejected (Error "Repeated API errors (503): Service Unavailable"))
  /\ ((5 = GeminiService.MAX_ATTEMPTS /\ exists st,
        Error "Repeated API errors (503): Service Unavailable" = GeminiService.timeout st) \/
  (5 <= GeminiService.MAX_ATTEMPTS /\ exists m,
     Error "Repeated API errors (503): Service Unavailable" = Error m /\
     (includes m "Repeated API" || includes m "Suno API task failed"
      || includes m "Generation marked as complete") = true)).
Proof.
  assert (E : GeminiService.pollForMusic no_parse fixed_stamp ascii_toUpperCase (fun _ => server_error)
    = (5, Rejected (Error "Repeated API errors (503): Service Unavailable")))
    by (vm_compute; reflexivity).
  split; [exact E|].
  exact (gemini_rejection_kinds _ _ _ _ _ _ E).
Defined.

Lemma part000_resolves_all_tracks_witness :
  let resp := fun _ : nat => ok_payload (part000_data "SUCCESS" [part000_track]) in
  let r := Part000.pollForMusic resp in
  r = (1, Resolved (result_value [] r)) /\
  (1 <= 1 <= Part000.MAX_ATTEMPTS /\
  exists res xs, resp 0 = HttpOk res /\ get res "code" = Some (JNum 200) /\
    get (oget res "data") "status" = Some (JStr "SUCCESS") /\
    oget (oget (oget res "data") "response") "sunoData" = JArr xs /\ xs <> [] /\
    Forall2 (fun x t => Part000.to_task x = Some t) xs (result_value [] r)).
Proof.
  intros resp r.
  assert (E : r = (1, Resolved (result_value [] r))) by (vm_compute; reflexivity).
  split; [exact E|].
  exact (part000_resolves_all_tracks _ _ _ E).
Defined.

Lemma part000_rejection_kinds_witness :
  let resp := fun _ : nat => ok_payload (part000_data "GENERATE_FAILED" []) in
  Part000.pollForMusic resp = (1, Rejected (Error "Generation failed: GENERATE_FAILED")) /\
  (((1 = Part000.MAX_ATTEMPTS /\
     Error "Generation failed: GENERATE_FAILED" = Error "Generation timeout, please try again later") \/
   (1 <= Part000.MAX_ATTEMPTS /\ exists m,
     Error "Generation failed: GENERATE_FAILED" = Error m /\ includes m "Generation failed" = true))
  /\ Error "Generation failed: GENERATE_FAILED" <> Error "Generation completed but no audio data returned").
Proof.
  intros resp.
  assert (E : Part000.pollForMusic resp = (1, Rejected (Error "Generation failed: GENERATE_FAILED")))
    by (vm_compute; reflexivity).
  split; [exact E|].
  exact (part000_rejection_kinds _ _ _ E).
Defined.


Lemma udio_resolves_with_job_url_witness :
  let r := UdioService.pollForTrack "w1" (fun _ => udio_done_resp) in
  r = (1, Resolved (result_value JUndef r)) /\
  (1 <= 1 <= UdioService.MAX_ATTEMPTS /\
  exists res ts t, udio_done_resp = HttpOk res /\ get res "data" = Some (JArr ts) /\
    In t ts /\ get t "id" = Some (JStr "w1") /\
    is_str (oget t "status") "SUCCESS" = true /\ truthy (result_value JUndef r) = true /\
    result_value JUndef r = oget t "audio_url").
Proof.
  intros r.
  assert (E : r = (1, Resolved (result_value JUndef r))) by (vm_compute; reflexivity).
  split; [exact E|].
  exact (udio_resolves_with_job_url _ _ _ _ E).
Defined.

Lemma udio_rejects_only_on_timeout_witness :
  let r := UdioService.pollForTrack "w1" (fun _ => udio_feed "w1" "FAILED") in
  r = (30, Rejected (Error "Timeout waiting for audio generation.")) /\
  30 = UdioService.MAX_ATTEMPTS /\
  Error "Timeout waiting for audio generation." = Error "Timeout waiting for audio generation.".
Proof.
  intros r.
  assert (E : r = (30, Rejected (Error "Timeout waiting for audio generation.")))
    by (vm_compute; reflexivity).
  split; [exact E|].
  exact (udio_rejects_only_on_timeout _ _ _ _ E).
Defined.

(** ** Submission, analysis and the analysis endpoint *)

Lemma coalesce_not_nullish a b : nullish b = false -> nullish (coalesce a b) = false.
Proof. intros Hb; unfold coalesce; destruct (nullish a) eqn:E; [exact Hb|exact E]. Qed.

Lemma substring_zero n s : substring n 0 s = "".
Proof. revert s; induction n; intros [|c s]; cbn; auto. Qed.

Lemma upload_log key r :
  fst (GeminiAnalysis.uploadVideoToGemini key r)
  = if truthy key then [GeminiAnalysis.Upload (GeminiAnalysis.upload_url key)] else [].
Proof. unfold GeminiAnalysis.uploadVideoToGemini; destruct (truthy key); reflexivity. Qed.

(** The requests of [analyzeScriptAndGeneratePrompts]: none without a
    key; the upload, when a video is given; the analysis request, unless
    the upload failed. *)
Lemma analysis_log parse key scriptText videoFile upload_r r :
  fst (GeminiAnalysis.analyzeScriptAndGeneratePrompts parse key scriptText videoFile upload_r r)
  = if negb (truthy key) then [] else
    if videoFile then
      match snd (GeminiAnalysis.uploadVideoToGemini key upload_r) with
      | Rejected _ => [GeminiAnalysis.Upload (GeminiAnalysis.upload_url key)]
      | Resolved (uri, mimeType) =>
          [GeminiAnalysis.Upload (GeminiAnalysis.upload_url key);
           GeminiAnalysis.Generate (GeminiAnalysis.generate_url key)
             [GeminiAnalysis.file_part uri mimeType;
              JObj [("text", JStr GeminiAnalysis.systemPrompt)];
              GeminiAnalysis.script_part scriptText]]
      end
    else [GeminiAnalysis.Generate (GeminiAnalysis.generate_url key)
            [JObj [("text", JStr GeminiAnalysis.systemPrompt)];
             GeminiAnalysis.script_part scriptText]].
Proof.
  unfold GeminiAnalysis.analyzeScriptAndGeneratePrompts.
  destruct (truthy key) eqn:Ek; [|reflexivity]; cbn [negb].
  destruct videoFile; [|reflexivity].
  pose proof (upload_log key upload_r) as L; rewrite Ek in L.
  destruct (GeminiAnalysis.uploadVideoToGemini key upload_r) as [l [[u m]|e]];
    cbn in L |- *; subst l; reflexivity.
Qed.

(** [sunoService.generateMusic] (and its copy in [geminiService.ts])
    resolves only for a non-empty key and a 2xx reply whose [code] is the
    number 200, with the value of [data.taskId], whatever it is. *)
Theorem suno_generate_resolves_task_id :
  forall prompt apiKey instrumental r t,
  SunoService.generateMusic prompt apiKey instrumental r = Resolved t ->
  apiKey <> "" /\ exists res, r = HttpOk res /\ get res "code" = Some (JNum 200) /\
    get (oget res "data") "taskId" = Some t.
Proof.
  intros p k b r t H; unfold SunoService.generateMusic in H.
  destruct (String.eqb k "") eqn:Ek; [discriminate|].
  split; [intros ->; discriminate Ek|].
  destruct r as [m|c m|c m|m|res]; try discriminate.
  exists res; split; [reflexivity|].
  destruct (get res "code") as [code|]; [|discriminate].
  destruct code as [| | |z| | |]; cbn in H; try discriminate.
  destruct (Z.eqb z 200) eqn:Ez; cbn in H; [|discriminate].
  apply Z.eqb_eq in Ez; subst z; split; [reflexivity|].
  destruct (get (oget res "data") "taskId"); [|discriminate].
  injection H as ->; reflexivity.
Qed.

(** [udioService.generateTrack] resolves only for a non-empty key and a
    2xx reply, with a truthy id: [workId] when it is truthy, otherwise
    [data.task_id]. *)
Theorem udio_generate_truthy_id :
  forall prompt apiKey r w, UdioService.generateTrack prompt apiKey r = Resolved w ->
  apiKey <> "" /\ truthy w = true /\ exists data, r = HttpOk data /\
    w = (if truthy (oget data "workId") then oget data "workId"
         else oget (oget data "data") "task_id").
Proof.
  intros p k r w H; unfold UdioService.generateTrack in H.
  destruct (String.eqb k "") eqn:Ek; [discriminate|].
  destruct r as [m|c m|c m|m|data]; try discriminate.
  destruct (get data "workId") as [wd|] eqn:Ew; [|discriminate].
  destruct (truthy (js_or wd (oget (oget data "data") "task_id"))) eqn:Et; cbn in H;
    [|discriminate].
  injection H as <-.
  split; [intros ->; discriminate Ek|]; split; [exact Et|].
  exists data; split; [reflexivity|].
  replace (oget data "workId") with wd by (unfold oget; rewrite Ew; reflexivity).
  reflexivity.
Qed.

(** [uploadVideoToGemini] resolves only after a 2xx reply whose
    [file.uri] is truthy, with that URI and [file.mimeType]; without a key
    it sends nothing. *)
Theorem upload_resolves_with_uri :
  forall key r u m, snd (GeminiAnalysis.uploadVideoToGemini key r) = Resolved (u, m) ->
  truthy key = true /\ truthy u = true /\
  exists data f, r = HttpOk data /\ get data "file" = Some f /\
    get f "uri" = Some u /\ m = oget f "mimeType".
Proof.
  intros key r u m H; unfold GeminiAnalysis.uploadVideoToGemini in H.
  destruct (truthy key) eqn:Ek; cbn in H; [|discriminate].
  split; [reflexivity|].
  destruct r as [x|c x|c x|x|data]; try discriminate.
  destruct (get data "file") as [f|] eqn:Ef; [|discriminate].
  destruct (truthy f); cbn in H; [|discriminate].
  destruct (get f "uri") as [u'|] eqn:Eu; [|discriminate].
  destruct (truthy u') eqn:Et; cbn in H; [|discriminate].
  injection H as <- <-.
  split; [exact Et|]; exists data, f; repeat split; assumption.
Qed.

(** Every request [analyzeScriptAndGeneratePrompts] sends carries the API
    key in its URL as the query parameter [key]; without a key it sends
    none. *)
Theorem analysis_requests_carry_key :
  forall parse key scriptText videoFile upload_r r q,
  In q (fst (GeminiAnalysis.analyzeScriptAndGeneratePrompts parse key scriptText videoFile upload_r r)) ->
  truthy key = true /\
  exists base, GeminiAnalysis.request_url q = base ++ "?key=" ++ to_string key.
Proof.
  intros parse key s v ur r q H; rewrite analysis_log in H.
  destruct (truthy key) eqn:Ek; [|contradiction]; split; [reflexivity|].
  destruct v; [destruct (snd (GeminiAnalysis.uploadVideoToGemini key ur)) as [[u m]|e]|];
    cbn in H; repeat destruct H as [<-|H]; try contradiction.
  all: first [ exists "https://generativelanguage.googleapis.com/upload/v1beta/files"; reflexivity
             | exists "https://generativelanguage.googleapis.com/v1beta/models/gemini-1.5-flash:generateContent";
               reflexivity ].
Qed.

(** When the video upload fails, [analyzeScriptAndGeneratePrompts]
    rejects with the upload's error and sends no analysis request. *)
Theorem analysis_upload_failure_stops :
  forall parse key scriptText upload_r r e,
  snd (GeminiAnalysis.uploadVideoToGemini key upload_r) = Rejected e ->
  GeminiAnalysis.analyzeScriptAndGeneratePrompts parse key scriptText true upload_r r
  = (if truthy key then [GeminiAnalysis.Upload (GeminiAnalysis.upload_url key)] else [],
     Rejected e).
Proof.
  intros parse key s ur r e H.
  unfold GeminiAnalysis.analyzeScriptAndGeneratePrompts.
  destruct (truthy key) eqn:Ek; cbn [negb].
  - pose proof (upload_log key ur) as L; rewrite Ek in L.
    destruct (GeminiAnalysis.uploadVideoToGemini key ur) as [l o]; cbn in H, L; subst; reflexivity.
  - unfold GeminiAnalysis.uploadVideoToGemini in H; rewrite Ek in H; cbn in H; congruence.
Qed.

(** When the first part of the first candidate has the empty text,
    [analyzeScriptAndGeneratePrompts] rejects with "No text content
    returned from Gemini.", whatever text the later parts carry: [??]
    falls back to them only when the first text is null or undefined. *)
Theorem analysis_empty_first_text :
  forall parse fs c cs p ps,
  lookup_field "candidates" fs = JArr (c :: cs) ->
  oget (oget c "content") "parts" = JArr (p :: ps) ->
  oget p "text" = JStr "" ->
  GeminiAnalysis.analysis_result parse (HttpOk (JObj fs))
  = Rejected (Error GeminiAnalysis.no_text).
Proof.
  intros parse fs c cs p ps Hc Hp Ht.
  unfold GeminiAnalysis.analysis_result, GeminiAnalysis.raw_text; cbn [get].
  rewrite Hc; cbn [idx0]; rewrite Hp; cbn [idx0]; rewrite Ht; reflexivity.
Qed.

(** When the model's text has its last [}] before its first [{],
    [analyzeScriptAndGeneratePrompts] parses the empty slice between them
    instead of the text, and so rejects with its JSON error. *)
Theorem analysis_reversed_braces :
  forall parse data s a b,
  parse "" = None ->
  GeminiAnalysis.raw_text data = Some (JStr s) -> s <> "" ->
  index_of s "{"%char = Some a -> last_index_of s "}"%char = Some b -> b < a ->
  GeminiAnalysis.analysis_result parse (HttpOk data)
  = Rejected (Error GeminiAnalysis.parse_failed).
Proof.
  intros parse data s a b Hp Hr Hs Ha Hb Hlt.
  unfold GeminiAnalysis.analysis_result; rewrite Hr.
  replace (truthy (JStr s)) with true
    by (cbn; destruct (String.eqb_spec s ""); [contradiction|reflexivity]).
  cbn [negb].
  unfold GeminiAnalysis.parse_analysis, GeminiAnalysis.json_string.
  rewrite Ha, Hb; cbn [to_string].
  unfold slice; replace (b + 1 - a) with 0 by lia.
  rewrite substring_zero.
  rewrite Hp; reflexivity.
Qed.

(** The analysis [analyzeScriptAndGeneratePrompts] resolves with has no
    null or undefined field.  It comes from a 2xx reply whose raw text
    yields a JSON text that [JSON.parse] turns into a value [parsed] that
    is not null or undefined; each field is [parsed]'s field of that name,
    and the empty string when that one is null or undefined (missing). *)
Theorem analysis_fields_present :
  forall parse key scriptText videoFile upload_r r a,
  snd (GeminiAnalysis.analyzeScriptAndGeneratePrompts parse key scriptText videoFile upload_r r)
  = Resolved a ->
  (nullish (GeminiAnalysis.summary a) = false /\ nullish (GeminiAnalysis.music_prompt a) = false /\
   nullish (GeminiAnalysis.mood a) = false /\ nullish (GeminiAnalysis.title a) = false) /\
  exists data raw js parsed,
    r = HttpOk data /\ GeminiAnalysis.raw_text data = Some raw /\
    GeminiAnalysis.json_string raw = Some js /\ parse (to_string js) = Some parsed /\
    nullish parsed = false /\
    GeminiAnalysis.summary a = coalesce (oget parsed "summary") (JStr "") /\
    GeminiAnalysis.music_prompt a = coalesce (oget parsed "music_prompt") (JStr "") /\
    GeminiAnalysis.mood a = coalesce (oget parsed "mood") (JStr "") /\
    GeminiAnalysis.title a = coalesce (oget parsed "title") (JStr "") /\
    (nullish (oget parsed "summary") = true -> GeminiAnalysis.summary a = JStr "") /\
    (nullish (oget parsed "music_prompt") = true -> GeminiAnalysis.music_prompt a = JStr "") /\
    (nullish (oget parsed "mood") = true -> GeminiAnalysis.mood a = JStr "") /\
    (nullish (oget parsed "title") = true -> GeminiAnalysis.title a = JStr "").
Proof.
  intros parse key s v ur r a H.
  assert (R : GeminiAnalysis.analysis_result parse r = Resolved a).
  { unfold GeminiAnalysis.analyzeScriptAndGeneratePrompts in H.
    destruct (truthy key); cbn [negb] in H; [|discriminate].
    destruct v; [destruct (GeminiAnalysis.uploadVideoToGemini key ur) as [l [[u m]|e]]|];
      cbn in H; first [exact H | discriminate]. }
  unfold GeminiAnalysis.analysis_result in R.
  destruct r as [m|c m|c m|m|data]; try discriminate.
  destruct (GeminiAnalysis.raw_text data) as [raw|] eqn:Er; [|discriminate].
  destruct (negb (truthy raw)); [discriminate|].
  unfold GeminiAnalysis.parse_analysis in R.
  destruct (GeminiAnalysis.json_string raw) as [js|] eqn:Ej; [|discriminate].
  destruct (parse (to_string js)) as [parsed|] eqn:Ep; [|discriminate].
  destruct (nullish parsed) eqn:En; [discriminate|].
  injection R as <-; cbn.
  split; [repeat split; apply coalesce_not_nullish; reflexivity|].
  exists data, raw, js, parsed.
  do 9 (split; [reflexivity || assumption|]).
  unfold coalesce.
  repeat split; intros Hn; rewrite Hn; reflexivity.
Qed.

(** [handleAnalyzeScript] either stops at its input check, sending
    nothing and setting only the error, or ends with [isLoading] false and
    exactly one of an analysis and an error that starts with "An error
    occurred: ". *)
Theorem app_handler_outcome :
  forall parse tm key scriptText videoFile useVideo late upload_r r st,
  let res := AnalyzeApp.handleAnalyzeScript parse tm key scriptText videoFile useVideo late
               upload_r r st in
  (fst res = [] /\ String.eqb (trim scriptText) "" = true /\ videoFile = false /\
   snd res = {| AnalyzeApp.isLoading := AnalyzeApp.isLoading st;
                AnalyzeApp.error := Some AnalyzeApp.missing_input;
                AnalyzeApp.analysis := AnalyzeApp.analysis st |})
  \/
  (AnalyzeApp.isLoading (snd res) = false /\
   ((AnalyzeApp.error (snd res) = None /\ exists a, AnalyzeApp.analysis (snd res) = Some a) \/
    (AnalyzeApp.analysis (snd res) = None /\
     exists m, AnalyzeApp.error (snd res) = Some ("An error occurred: " ++ m)))).
Proof.
  intros parse tm key s v u late ur r st res; subst res.
  unfold AnalyzeApp.handleAnalyzeScript.
  destruct (String.eqb (trim s) "" && negb v) eqn:Ev.
  { left; apply andb_true_iff in Ev; destruct Ev as [E1 E2].
    destruct v; [discriminate|]; repeat split; assumption. }
  destruct (GeminiAnalysis.analyzeScriptAndGeneratePrompts _ _ _ _ _ _) as [log o].
  right; destruct late; [|destruct o as [a|e]]; cbn; split; try reflexivity;
    first [ left; split; [reflexivity|eexists; reflexivity]
          | right; split; [reflexivity|eexists; reflexivity] ].
Qed.

(** When "use video" is unchecked, [handleAnalyzeScript] uploads nothing
    and sends at most the analysis request, with no file part. *)
Theorem app_video_only_when_checked :
  forall parse tm key scriptText videoFile late upload_r r st q,
  In q (fst (AnalyzeApp.handleAnalyzeScript parse tm key scriptText videoFile false late
               upload_r r st)) ->
  q = GeminiAnalysis.Generate (GeminiAnalysis.generate_url key)
        [JObj [("text", JStr GeminiAnalysis.systemPrompt)];
         GeminiAnalysis.script_part scriptText].
Proof.
  intros parse tm key s v late ur r st q H.
  unfold AnalyzeApp.handleAnalyzeScript in H.
  destruct (String.eqb (trim s) "" && negb v); [contradiction|].
  pose proof (analysis_log parse key s false ur r) as L.
  destruct (GeminiAnalysis.analyzeScriptAndGeneratePrompts parse key s false ur r) as [log o].
  cbn in L; subst log.
  assert (H' : In q (if negb (truthy key) then [] else
                       [GeminiAnalysis.Generate (GeminiAnalysis.generate_url key)
                          [JObj [("text", JStr GeminiAnalysis.systemPrompt)];
                           GeminiAnalysis.script_part s]]))
    by (destruct late; [|destruct o]; exact H).
  destruct (truthy key); cbn in H'; [destruct H' as [<-|[]]; reflexivity|contradiction].
Qed.

(** With a blank script, a video file chosen and "use video" unchecked,
    [handleAnalyzeScript] passes its input check and asks Gemini for an
    analysis that carries neither the script nor the video. *)
Theorem app_blank_script_unused_video :
  forall parse tm key scriptText late upload_r r st,
  truthy key = true -> trim scriptText = "" ->
  fst (AnalyzeApp.handleAnalyzeScript parse tm key scriptText true false late upload_r r st)
  = [GeminiAnalysis.Generate (GeminiAnalysis.generate_url key)
       [JObj [("text", JStr GeminiAnalysis.systemPrompt)];
        JObj [("text", JStr GeminiAnalysis.no_script_text)]]].
Proof.
  intros parse tm key s late ur r st Hk Hs.
  unfold AnalyzeApp.handleAnalyzeScript; rewrite Hs; cbn [String.eqb andb negb].
  pose proof (analysis_log parse key s false ur r) as L.
  rewrite Hk in L; cbn [negb] in L.
  replace (GeminiAnalysis.script_part s)
    with (JObj [("text", JStr GeminiAnalysis.no_script_text)]) in L
    by (unfold GeminiAnalysis.script_part; rewrite Hs; cbn;
        destruct (String.eqb s ""); reflexivity).
  destruct (GeminiAnalysis.analyzeScriptAndGeneratePrompts parse key s false ur r) as [log o].
  cbn in L; subst log; destruct late; [|destruct o]; reflexivity.
Qed.

(** The analysis endpoint contacts the Gemini proxy exactly when the
    request is a POST, the key is configured, the body parses, [scriptText]
    is absent or a string, and the trimmed script or the video is truthy. *)
Theorem api_upstream_only_for_valid_request :
  forall parse tm apiKey method reqBody up,
  fst (AnalyzeApi.handler parse tm apiKey method reqBody up) <> [] <->
  method = "POST" /\ truthy apiKey = true /\
  exists b t,
    (match reqBody with JStr s => parse s | b => Some b end) = Some b /\
    trim_opt (oget (js_or b (JObj [])) "scriptText") = Some t /\
    (truthy t || truthy (oget (js_or b (JObj [])) "video")) = true.
Proof.
  intros parse tm k m rb up; unfold AnalyzeApi.handler.
  destruct (String.eqb_spec m "POST") as [->|Hm]; cbn [negb];
    [|split; [intros H; contradiction H; reflexivity|intros [E _]; contradiction]].
  destruct (truthy k); cbn [negb];
    [|split; [intros H; contradiction H; reflexivity|intros [_ [E _]]; discriminate]].
  destruct (match rb with JStr s => parse s | b => Some b end) as [b|].
  2: { split; [intros H; contradiction H; reflexivity|intros [_ [_ [b [t [E _]]]]]; discriminate]. }
  destruct (trim_opt (oget (js_or b (JObj [])) "scriptText")) as [t|] eqn:Et0.
  2: { split; [intros H; contradiction H; reflexivity|intros [_ [_ [b' [t [E [F _]]]]]]].
       injection E as <-; congruence. }
  destruct (truthy t) eqn:Et, (truthy (oget (js_or b (JObj [])) "video")) eqn:Ev; cbn.
  1-3: split; [intros _; split; [reflexivity|split; [reflexivity|]];
               exists b, t; rewrite Et, Ev; auto|discriminate].
  split; [intros H; contradiction H; reflexivity|].
  intros [_ [_ [b' [t' [E [F G]]]]]]; injection E as <-.
  rewrite Et0 in F; injection F as <-; rewrite Et, Ev in G; discriminate G.
Qed.

Lemma after_upstream_kinds parse up :
  let r := AnalyzeApi.after_upstream parse up in
  (AnalyzeApi.status r = 200%Z /\ exists st text s, up = AnalyzeApi.UpResponse st text /\
     AnalyzeApi.ok st = true /\ s <> "" /\ parse (AnalyzeApi.json_slice s) = Some (AnalyzeApi.body r))
  \/ AnalyzeApi.status r = 500%Z
  \/ (exists st text, up = AnalyzeApi.UpResponse st text /\ AnalyzeApi.ok st = false /\
        r = AnalyzeApi.json_reply st (JObj [("error", JStr "Gemini upstream error");
                                           ("status", JNum st); ("body", JStr text)])).
Proof.
  intros r; subst r; unfold AnalyzeApi.after_upstream.
  destruct up as [m|st text]; [right; left; reflexivity|].
  destruct (AnalyzeApi.ok st) eqn:Ok; cbn [negb].
  2: { right; right; exists st, text; auto. }
  match goal with |- context [match ?t with JStr _ => _ | _ => _ end] =>
    destruct t as [| | | | s | |]; try (right; left; reflexivity) end.
  destruct (String.eqb_spec s ""); [right; left; reflexivity|].
  destruct (parse (AnalyzeApi.json_slice s)) as [p|] eqn:Ep; [|right; left; reflexivity].
  left; split; [reflexivity|]; exists st, text, s; auto.
Qed.

(** Every reply of the analysis endpoint is either a 200 whose body is
    the JSON parsed from a slice of a non-empty text, after a 2xx answer
    of the proxy; or one of its own 400, 405 and 500 errors; or the
    proxy's non-2xx status passed through with its body text. *)
Theorem api_reply_kinds :
  forall parse tm apiKey method reqBody up,
  let r := snd (AnalyzeApi.handler parse tm apiKey method reqBody up) in
  (AnalyzeApi.status r = 200%Z /\ exists st text s, up = AnalyzeApi.UpResponse st text /\
     AnalyzeApi.ok st = true /\ s <> "" /\ parse (AnalyzeApi.json_slice s) = Some (AnalyzeApi.body r))
  \/ In (AnalyzeApi.status r) [400; 405; 500]%Z
  \/ (exists st text, up = AnalyzeApi.UpResponse st text /\ AnalyzeApi.ok st = false /\
        r = AnalyzeApi.json_reply st (JObj [("error", JStr "Gemini upstream error");
                                           ("status", JNum st); ("body", JStr text)])).
Proof.
  intros parse tm k m rb up r; subst r; unfold AnalyzeApi.handler.
  destruct (negb (String.eqb m "POST")); [right; left; cbn; auto|].
  destruct (negb (truthy k)); [right; left; cbn; auto|].
  destruct (match rb with JStr s => parse s | b => Some b end) as [b|];
    [|right; left; cbn; auto].
  destruct (trim_opt (oget (js_or b (JObj [])) "scriptText")) as [t|]; [|right; left; cbn; auto].
  destruct (negb (truthy t) && negb (truthy (oget (js_or b (JObj [])) "video")));
    [right; left; cbn; auto|].
  cbn [snd]; destruct (after_upstream_kinds parse up) as [H|[H|H]];
    [left; exact H|right; left; rewrite H; cbn; auto|right; right; exact H].
Qed.

(** When the proxy answers 2xx with a body that is not JSON, the endpoint
    takes the body itself as the model's text: if the part from its first
    [{] to its last [}] parses, it replies 200 with that JSON. *)
Theorem api_plain_text_fallback :
  forall parse tm apiKey method reqBody st text p,
  fst (AnalyzeApi.handler parse tm apiKey method reqBody (AnalyzeApi.UpResponse st text)) <> [] ->
  AnalyzeApi.ok st = true -> parse text = None -> text <> "" ->
  parse (AnalyzeApi.json_slice text) = Some p ->
  snd (AnalyzeApi.handler parse tm apiKey method reqBody (AnalyzeApi.UpResponse st text))
  = AnalyzeApi.json_reply 200%Z p.
Proof.
  intros parse tm k m rb st text p Hf Ok Hn Hne Hp.
  unfold AnalyzeApi.handler in *.
  destruct (negb (String.eqb m "POST")); [contradiction Hf; reflexivity|].
  destruct (negb (truthy k)); [contradiction Hf; reflexivity|].
  destruct (match rb with JStr s => parse s | b => Some b end) as [b|];
    [|contradiction Hf; reflexivity].
  destruct (trim_opt (oget (js_or b (JObj [])) "scriptText")) as [t|];
    [|contradiction Hf; reflexivity].
  destruct (negb (truthy t) && negb (truthy (oget (js_or b (JObj [])) "video")));
    [contradiction Hf; reflexivity|].
  cbn [snd]; unfold AnalyzeApi.after_upstream; rewrite Ok, Hn; cbn [negb].
  destruct (String.eqb_spec text ""); [contradiction|].
  rewrite Hp; reflexivity.
Qed.

Lemma suno_generate_resolves_task_id_witness :
  "k" <> "" /\ exists res,
    ok_payload (JObj [("taskId", JStr "t1")]) = HttpOk res /\
    get res "code" = Some (JNum 200) /\ get (oget res "data") "taskId" = Some (JStr "t1").
Proof.
  exact (suno_generate_resolves_task_id "lofi beat" "k" true
           (ok_payload (JObj [("taskId", JStr "t1")])) (JStr "t1")
           ltac:(vm_compute; reflexivity)).
Defined.

Lemma udio_generate_truthy_id_witness :
  let r := HttpOk (JObj [("data", JObj [("task_id", JStr "u1")])]) in
  "k" <> "" /\ truthy (JStr "u1") = true /\ exists data, r = HttpOk data /\
    JStr "u1" = (if truthy (oget data "workId") then oget data "workId"
                 else oget (oget data "data") "task_id").
Proof.
  exact (udio_generate_truthy_id "lofi beat" "k"
           (HttpOk (JObj [("data", JObj [("task_id", JStr "u1")])])) (JStr "u1")
           ltac:(vm_compute; reflexivity)).
Defined.

Lemma upload_resolves_with_uri_witness :
  let r := HttpOk (JObj [("file", JObj [("uri", JStr "files/abc"); ("mimeType", JStr "video/mp4")])]) in
  truthy (JStr "k") = true /\ truthy (JStr "files/abc") = true /\
  exists data f, r = HttpOk data /\ get data "file" = Some f /\
    get f "uri" = Some (JStr "files/abc") /\ JStr "video/mp4" = oget f "mimeType".
Proof.
  exact (upload_resolves_with_uri (JStr "k")
           (HttpOk (JObj [("file", JObj [("uri", JStr "files/abc"); ("mimeType", JStr "video/mp4")])]))
           (JStr "files/abc") (JStr "video/mp4") ltac:(vm_compute; reflexivity)).
Defined.

Lemma analysis_requests_carry_key_witness :
  truthy (JStr "k") = true /\
  exists base, GeminiAnalysis.request_url (GeminiAnalysis.Upload (GeminiAnalysis.upload_url (JStr "k")))
               = base ++ "?key=" ++ to_string (JStr "k").
Proof.
  exact (analysis_requests_carry_key json_stub (JStr "k") "calm piano" true
           (HttpOk (JObj [("file", JObj [("uri", JStr "files/abc")])]))
           (HttpError 503 "Service Unavailable")
           (GeminiAnalysis.Upload (GeminiAnalysis.upload_url (JStr "k")))
           ltac:(vm_compute; left; reflexivity)).
Defined.

Lemma analysis_upload_failure_stops_witness :
  GeminiAnalysis.analyzeScriptAndGeneratePrompts json_stub (JStr "k") "calm piano" true
    (HttpError 413 "Payload Too Large") (HttpOk (JObj []))
  = ([GeminiAnalysis.Upload (GeminiAnalysis.upload_url (JStr "k"))],
     Rejected (Error "Failed to upload video: 413 - Payload Too Large")).
Proof.
  exact (analysis_upload_failure_stops json_stub (JStr "k") "calm piano"
           (HttpError 413 "Payload Too Large") (HttpOk (JObj []))
           (Error "Failed to upload video: 413 - Payload Too Large")
           ltac:(vm_compute; reflexivity)).
Defined.

Lemma analysis_empty_first_text_witness :
  GeminiAnalysis.analysis_result json_stub
    (HttpOk (JObj (candidates_fields [JObj [("text", JStr "")]; JObj [("text", JStr "{}")]])))
  = Rejected (Error GeminiAnalysis.no_text).
Proof.
  exact (analysis_empty_first_text json_stub
           (candidates_fields [JObj [("text", JStr "")]; JObj [("text", JStr "{}")]])
           (JObj [("content", JObj [("parts", JArr [JObj [("text", JStr "")];
                                                   JObj [("text", JStr "{}")]])])]) []
           (JObj [("text", JStr "")]) [JObj [("text", JStr "{}")]]
           ltac:(vm_compute; reflexivity) ltac:(vm_compute; reflexivity)
           ltac:(vm_compute; reflexivity)).
Defined.

Lemma analysis_reversed_braces_witness :
  GeminiAnalysis.analysis_result json_stub
    (HttpOk (JObj (candidates_fields [JObj [("text", JStr "} {")]])))
  = Rejected (Error GeminiAnalysis.parse_failed).
Proof.
  exact (analysis_reversed_braces json_stub
           (JObj (candidates_fields [JObj [("text", JStr "} {")]])) "} {" 2 0
           ltac:(vm_compute; reflexivity) ltac:(vm_compute; reflexivity)
           ltac:(vm_compute; congruence) ltac:(vm_compute; reflexivity)
           ltac:(vm_compute; reflexivity) ltac:(lia)).
Defined.

Lemma analysis_fields_present_witness :
  let a := {| GeminiAnalysis.summary := JStr ""; GeminiAnalysis.music_prompt := JStr "";
              GeminiAnalysis.mood := JStr ""; GeminiAnalysis.title := JStr "" |} in
  let r := HttpOk (JObj (candidates_fields [JObj [("text", JStr "Here: {}")]])) in
  snd (GeminiAnalysis.analyzeScriptAndGeneratePrompts json_stub (JStr "k") "calm piano"
         false (HttpOk JNull) r) = Resolved a /\
  (nullish (GeminiAnalysis.summary a) = false /\ nullish (GeminiAnalysis.music_prompt a) = false /\
   nullish (GeminiAnalysis.mood a) = false /\ nullish (GeminiAnalysis.title a) = false) /\
  exists data raw js parsed,
    r = HttpOk data /\ GeminiAnalysis.raw_text data = Some raw /\
    GeminiAnalysis.json_string raw = Some js /\ json_stub (to_string js) = Some parsed /\
    nullish parsed = false /\
    GeminiAnalysis.summary a = coalesce (oget parsed "summary") (JStr "") /\
    GeminiAnalysis.music_prompt a = coalesce (oget parsed "music_prompt") (JStr "") /\
    GeminiAnalysis.mood a = coalesce (oget parsed "mood") (JStr "") /\
    GeminiAnalysis.title a = coalesce (oget parsed "title") (JStr "") /\
    (nullish (oget parsed "summary") = true -> GeminiAnalysis.summary a = JStr "") /\
    (nullish (oget parsed "music_prompt") = true -> GeminiAnalysis.music_prompt a = JStr "") /\
    (nullish (oget parsed "mood") = true -> GeminiAnalysis.mood a = JStr "") /\
    (nullish (oget parsed "title") = true -> GeminiAnalysis.title a = JStr "").
Proof.
  intros a r.
  assert (E : snd (GeminiAnalysis.analyzeScriptAndGeneratePrompts json_stub (JStr "k")
                "calm piano" false (HttpOk JNull) r) = Resolved a)
    by (vm_compute; reflexivity).
  split; [exact E|].
  exact (analysis_fields_present json_stub (JStr "k") "calm piano" false (HttpOk JNull) r a E).
Defined.

Lemma app_video_only_when_checked_witness :
  GeminiAnalysis.Generate (GeminiAnalysis.generate_url (JStr "k"))
    [JObj [("text", JStr GeminiAnalysis.systemPrompt)]; GeminiAnalysis.script_part "calm piano"]
  = GeminiAnalysis.Generate (GeminiAnalysis.generate_url (JStr "k"))
      [JObj [("text", JStr GeminiAnalysis.systemPrompt)]; GeminiAnalysis.script_part "calm piano"].
Proof.
  exact (app_video_only_when_checked json_stub "TypeError" (JStr "k") "calm piano" true false
           (HttpOk JNull) (HttpOk JNull) empty_app_state
           (GeminiAnalysis.Generate (GeminiAnalysis.generate_url (JStr "k"))
              [JObj [("text", JStr GeminiAnalysis.systemPrompt)];
               GeminiAnalysis.script_part "calm piano"])
           ltac:(vm_compute; left; reflexivity)).
Defined.

Lemma app_blank_script_unused_video_witness :
  fst (AnalyzeApp.handleAnalyzeScript json_stub "TypeError" (JStr "k") "  " true false false
         (HttpOk JNull) (HttpOk JNull) empty_app_state)
  = [GeminiAnalysis.Generate (GeminiAnalysis.generate_url (JStr "k"))
       [JObj [("text", JStr GeminiAnalysis.systemPrompt)];
        JObj [("text", JStr GeminiAnalysis.no_script_text)]]].
Proof.
  exact (app_blank_script_unused_video json_stub "TypeError" (JStr "k") "  " false
           (HttpOk JNull) (HttpOk JNull) empty_app_state
           ltac:(vm_compute; reflexivity) ltac:(vm_compute; reflexivity)).
Defined.

Lemma api_plain_text_fallback_witness :
  snd (AnalyzeApi.handler json_stub "TypeError" (JStr "k") "POST"
         (JObj [("scriptText", JStr "calm")]) (AnalyzeApi.UpResponse 200 "Sure: {} Enjoy"))
  = AnalyzeApi.json_reply 200%Z (JObj []).
Proof.
  exact (api_plain_text_fallback json_stub "TypeError" (JStr "k") "POST"
           (JObj [("scriptText", JStr "calm")]) 200 "Sure: {} Enjoy" (JObj [])
           ltac:(vm_compute; congruence) ltac:(vm_compute; reflexivity)
           ltac:(vm_compute; reflexivity) ltac:(vm_compute; congruence)
           ltac:(vm_compute; reflexivity)).
Defined.
